(** * PySquared battery-board driver ([Batt_Board/lib/pysquared_eps.py])

    A shallow embedding of the [Satellite] class: the capability table
    [hardware], the persistent flag register, the relay / PWM / indicator
    lines, and the methods that drive them.  Python statements that can
    raise are sequenced in a small completion monad (normal / return /
    raise) so that [try], [except] and [finally] read as in the source.

    Numbers that are Python floats in the source are exact rationals here. *)

From Stdlib Require Import ZArith QArith Qround Lia String List.
From stdpp Require Import gmap strings list.

Local Open Scope Z_scope.

(** ** Board-level data *)

(** [digitalio.DriveMode] *)
Inductive DriveMode := PUSH_PULL | OPEN_DRAIN.

(** [digitalio.DigitalInOut]: the two attributes the driver writes. *)
Record DigitalInOut := {
  drive_mode : DriveMode;
  value : bool;
}.

(** [pwmio.PWMOut] *)
Record PWMOut := {
  frequency : Q;
  duty_cycle : Z;
  deinited : bool;
}.

Definition color : Type := Z * Z * Z.

(** The two INA219 power monitors, [self.pwr] and [self.solar]. *)
Inductive monitor := pwr | solar.

(** Every call the driver makes into a CircuitPython peripheral library. *)
Inductive hw_op :=
| relay_drive_mode (m : DriveMode)   (* self._relayA.drive_mode = m *)
| relay_value (v : bool)             (* self._relayA.value = v *)
| neopixel_set (c : color)           (* self.neopixel[0] = c *)
| PWMOut_new (freq : Q)              (* pwmio.PWMOut(board.BURN_ENABLE, ...) *)
| burnwire_duty (d : Z)              (* burnwire.duty_cycle = d *)
| burnwire_deinit                    (* burnwire.deinit() *)
| channel_duty (ch : nat) (d : Z)    (* self.faces.channels[ch].duty_cycle = d *)
| sleep (secs : Q)                   (* time.sleep(secs) *)
| bus_voltage (dev : monitor)        (* dev.bus_voltage *)
| shunt_voltage (dev : monitor)      (* dev.shunt_voltage *)
| current (dev : monitor)            (* dev.current *)
| pct_temperature                    (* self.pct.temperature *)
| thermocouple_voltage.              (* AnalogIn(self.thermocouple, ADS.P1).voltage *)

(** What a peripheral call does: it answers (a reading, or nothing of
    interest for a write) or it raises. *)
Inductive response := Ok (v : Q) | Fault.

(** The peripherals as seen from the driver: the answer to a call may
    depend on every call made before it. *)
Definition Board : Type := list hw_op -> hw_op -> response.

(** ** Non-volatile registers *)

Definition _BOOTCNT : nat := 0.
Definition _VBUSRST : nat := 6.
Definition _STATECNT : nat := 7.
Definition _TOUTS : nat := 9.
Definition _ICHRG : nat := 11.
Definition _DIST : nat := 13.
Definition _FLAG : nat := 16.

Record bitFlag := { bf_register : nat; bf_bit : Z }.
Record multiBitFlag := { mbf_register : nat; mbf_lowest_bit : Z; mbf_num_bits : Z }.

Definition c_boot := {| mbf_register := _BOOTCNT; mbf_lowest_bit := 0; mbf_num_bits := 8 |}.
Definition c_vbusrst := {| mbf_register := _VBUSRST; mbf_lowest_bit := 0; mbf_num_bits := 8 |}.
Definition c_state_err := {| mbf_register := _STATECNT; mbf_lowest_bit := 0; mbf_num_bits := 8 |}.
Definition c_distance := {| mbf_register := _DIST; mbf_lowest_bit := 0; mbf_num_bits := 8 |}.
Definition c_ichrg := {| mbf_register := _ICHRG; mbf_lowest_bit := 0; mbf_num_bits := 8 |}.

Definition f_softboot := {| bf_register := _FLAG; bf_bit := 0 |}.
Definition f_solar := {| bf_register := _FLAG; bf_bit := 1 |}.
Definition f_burnarm := {| bf_register := _FLAG; bf_bit := 2 |}.
Definition f_brownout := {| bf_register := _FLAG; bf_bit := 3 |}.
Definition f_triedburn := {| bf_register := _FLAG; bf_bit := 4 |}.
Definition f_shtdwn := {| bf_register := _FLAG; bf_bit := 5 |}.
Definition f_burned := {| bf_register := _FLAG; bf_bit := 6 |}.
Definition f_fsk := {| bf_register := _FLAG; bf_bit := 7 |}.

(** The byte held by a register; a register never written reads 0. *)
Definition nvm_byte (store : gmap nat Z) (r : nat) : Z := default 0 (store !! r).

(** Modelled from the spec: the [bitflags] module ([bitFlag.__get__]) is
    imported by the driver but is not part of the sources; a flag is one
    bit of its register byte and reading it never fails. *)
Definition bitFlag_get (f : bitFlag) (store : gmap nat Z) : bool :=
  Z.testbit (nvm_byte store (bf_register f)) (bf_bit f).

(** Modelled from the spec: [bitFlag.__set__] of the absent [bitflags]
    module; the bit is or-ed in or masked out, the other seven bits of the
    byte are kept, and the store is written at once. *)
Definition bitFlag_set (f : bitFlag) (v : bool) (store : gmap nat Z) : gmap nat Z :=
  let byte := nvm_byte store (bf_register f) in
  let mask := Z.shiftl 1 (bf_bit f) in
  <[bf_register f := if v then Z.lor byte mask else Z.land byte (Z.lnot mask)]> store.

(** Modelled from the spec: [multiBitFlag.__get__] of the absent
    [bitflags] module, the field [num_bits] wide starting at [lowest_bit]. *)
Definition multiBitFlag_get (c : multiBitFlag) (store : gmap nat Z) : Z :=
  Z.land (Z.shiftr (nvm_byte store (mbf_register c)) (mbf_lowest_bit c))
         (Z.ones (mbf_num_bits c)).

(** Modelled from the spec: [multiBitFlag.__set__] of the absent
    [bitflags] module; the value is clamped to the field width and the
    bits outside the field are kept. *)
Definition multiBitFlag_set (c : multiBitFlag) (v : Z) (store : gmap nat Z) : gmap nat Z :=
  let byte := nvm_byte store (mbf_register c) in
  let maxval := Z.ones (mbf_num_bits c) in
  let field := Z.shiftl maxval (mbf_lowest_bit c) in
  let clamped := Z.min (Z.max v 0) maxval in
  <[mbf_register c :=
      Z.lor (Z.land byte (Z.lnot field)) (Z.shiftl clamped (mbf_lowest_bit c))]> store.

(** ** The [Satellite] object *)

(** [adafruit_pct2075.PCT2075], as far as the driver is concerned a handle. *)
Inductive PCT2075 := PCT2075_at (address : Z).

Record Satellite := {
  hardware : gmap string bool;   (* self.hardware *)
  heating : bool;                (* self.heating *)
  nvm : gmap nat Z;              (* microcontroller.nvm *)
  _relayA : DigitalInOut;        (* self._relayA *)
  neopixel : color;              (* self.neopixel[0] *)
  channels : gmap nat Z;         (* duty_cycle of self.faces.channels[i] *)
  pct : option PCT2075;          (* self.pct: bound only if its constructor returned *)
}.

(** [self.FaceN = self.faces.channels[N]]; [self.heater = self.faces.channels[15]]. *)
Definition Face (n : nat) : nat := n.
Definition heater : nat := 15%nat.

Definition with_hardware (h : gmap string bool) (s : Satellite) : Satellite :=
  {| hardware := h; heating := heating s; nvm := nvm s; _relayA := _relayA s;
     neopixel := neopixel s; channels := channels s; pct := pct s |}.
Definition with_heating (b : bool) (s : Satellite) : Satellite :=
  {| hardware := hardware s; heating := b; nvm := nvm s; _relayA := _relayA s;
     neopixel := neopixel s; channels := channels s; pct := pct s |}.
Definition with_nvm (n : gmap nat Z) (s : Satellite) : Satellite :=
  {| hardware := hardware s; heating := heating s; nvm := n; _relayA := _relayA s;
     neopixel := neopixel s; channels := channels s; pct := pct s |}.
Definition with_relayA (r : DigitalInOut) (s : Satellite) : Satellite :=
  {| hardware := hardware s; heating := heating s; nvm := nvm s; _relayA := r;
     neopixel := neopixel s; channels := channels s; pct := pct s |}.
Definition with_neopixel (c : color) (s : Satellite) : Satellite :=
  {| hardware := hardware s; heating := heating s; nvm := nvm s; _relayA := _relayA s;
     neopixel := c; channels := channels s; pct := pct s |}.
Definition with_channels (c : gmap nat Z) (s : Satellite) : Satellite :=
  {| hardware := hardware s; heating := heating s; nvm := nvm s; _relayA := _relayA s;
     neopixel := neopixel s; channels := c; pct := pct s |}.

(** ** Running state *)

(** The object, the calls made into the peripheral libraries so far
    (oldest first), and the local variable [burnwire] of [burn]
    ([None] while it is unbound). *)
Record Machine := {
  self : Satellite;
  calls : list hw_op;
  burnwire : option PWMOut;
}.

Definition with_self (f : Satellite -> Satellite) (m : Machine) : Machine :=
  {| self := f (self m); calls := calls m; burnwire := burnwire m |}.
Definition with_call (op : hw_op) (m : Machine) : Machine :=
  {| self := self m; calls := calls m ++ [op]; burnwire := burnwire m |}.
Definition with_burnwire (b : option PWMOut) (m : Machine) : Machine :=
  {| self := self m; calls := calls m; burnwire := b |}.

(** ** Exceptions and completions *)

(** Everything raised here is an instance of Python's [Exception]. *)
Inductive exn :=
| HardwareError (op : hw_op)        (* raised by a peripheral library call *)
| UnboundLocalError (name : string) (* local variable read before assignment *)
| AttributeError (name : string)    (* attribute of self never assigned *)
| KeyError (key : string).          (* missing dictionary key *)

(** How a block of statements ends: it falls through, executes [return],
    or raises. *)
Inductive completion (R A : Type) :=
| Normal (a : A)
| Return (r : R)
| Raise (e : exn).
Arguments Normal {R A} a.
Arguments Return {R A} r.
Arguments Raise {R A} e.

Definition M (R A : Type) : Type := Machine -> completion R A * Machine.

Definition ret {R A} (a : A) : M R A := fun m => (Normal a, m).
Definition return_ {R A} (r : R) : M R A := fun m => (Return r, m).
Definition raise {R A} (e : exn) : M R A := fun m => (Raise e, m).

Definition bind {R A B} (c : M R A) (k : A -> M R B) : M R B :=
  fun m =>
    match c m with
    | (Normal a, m') => k a m'
    | (Return r, m') => (Return r, m')
    | (Raise e, m') => (Raise e, m')
    end.

(** [try: body / except Exception as e: handler e] *)
Definition try_except {R A} (body : M R A) (handler : exn -> M R A) : M R A :=
  fun m =>
    match body m with
    | (Raise e, m') => handler e m'
    | done => done
    end.

(** [try: body / finally: fin].  The [finally] block runs however [body]
    ended; if it raises (or returns) itself, that replaces the pending
    completion of [body]. *)
Definition try_finally {R A} (body : M R A) (fin : M R unit) : M R A :=
  fun m =>
    let (pending, m') := body m in
    match fin m' with
    | (Normal _, m'') => (pending, m'')
    | (Return r, m'') => (Return r, m'')
    | (Raise e, m'') => (Raise e, m'')
    end.

Definition get {R} : M R Machine := fun m => (Normal m, m).
Definition modify {R} (f : Machine -> Machine) : M R unit := fun m => (Normal tt, f m).

Declare Scope py_scope.
Delimit Scope py_scope with py.
Notation "x <- c ;; k" := (bind c (fun x => k))
  (at level 100, c at next level, k at level 200, right associativity) : py_scope.
Notation "c ;; k" := (bind c (fun _ => k))
  (at level 100, k at level 200, right associativity) : py_scope.

Local Open Scope py_scope.

(** Python's [for _ in range(n)] around a body that updates one local. *)
Fixpoint for_range {R A} (n : nat) (body : A -> M R A) (acc : A) : M R A :=
  match n with
  | O => ret acc
  | S n' => acc' <- body acc ;; for_range n' body acc'
  end.

(** Python's [int(x)] on a number: truncation toward zero. *)
Definition py_int (x : Q) : Z := Z.quot (Qnum x) (Zpos (Qden x)).

(** Python's [sub in s] on strings. *)
Definition py_in (sub s : string) : bool :=
  match String.index 0 sub s with
  | Some _ => true
  | None => false
  end.

(** [int((dutycycle / 100) * (0xFFFF))], the first statement of [burn]. *)
Definition dtycycl_of (dutycycle : Q) : Z :=
  py_int ((dutycycle / 100) * 65535)%Q.

Definition orange : color := (255, 165, 0).
Definition black : color := (0, 0, 0).

(** ** The driver, over an arbitrary board *)

Section Driver.

Variable board : Board.

(** One call into a peripheral library: it is recorded, and it raises
    when the board says so. *)
Definition hw_call {R} (op : hw_op) : M R Q :=
  fun m =>
    match board (calls m) op with
    | Ok v => (Normal v, with_call op m)
    | Fault => (Raise (HardwareError op), with_call op m)
    end.

(** [self.debug_print(...)]: console output only. *)
Definition debug_print {R} : M R unit := ret tt.

(** [print(...)] *)
Definition print {R} : M R unit := ret tt.

(** [time.sleep(secs)] *)
Definition time_sleep {R} (secs : Q) : M R unit :=
  hw_call (sleep secs) ;; ret tt.

(** [self.hardware[key]] *)
Definition hardware_get {R} (key : string) : M R bool :=
  fun m =>
    match hardware (self m) !! key with
    | Some b => (Normal b, m)
    | None => (Raise (KeyError key), m)
    end.

(** [self.hardware[key] = b] *)
Definition hardware_set {R} (key : string) (b : bool) : M R unit :=
  modify (with_self (fun s => with_hardware (<[key := b]> (hardware s)) s)).

(** [self._relayA.drive_mode = d] *)
Definition set_relay_drive_mode {R} (d : DriveMode) : M R unit :=
  hw_call (relay_drive_mode d) ;;
  modify (with_self (fun s =>
    with_relayA {| drive_mode := d; value := value (_relayA s) |} s)).

(** [self._relayA.value = v] *)
Definition set_relay_value {R} (v : bool) : M R unit :=
  hw_call (relay_value v) ;;
  modify (with_self (fun s =>
    with_relayA {| drive_mode := drive_mode (_relayA s); value := v |} s)).

(** [self.FaceN.duty_cycle = d] and [self.heater.duty_cycle = d] *)
Definition set_channel_duty {R} (ch : nat) (d : Z) : M R unit :=
  hw_call (channel_duty ch d) ;;
  modify (with_self (fun s => with_channels (<[ch := d]> (channels s)) s)).

(** Reading and writing a persistent flag ([self.f_xxx]). *)
Definition get_flag {R} (f : bitFlag) : M R bool :=
  m <- get ;; ret (bitFlag_get f (nvm (self m))).
Definition set_flag {R} (f : bitFlag) (v : bool) : M R unit :=
  modify (with_self (fun s => with_nvm (bitFlag_set f v (nvm s)) s)).
Definition set_counter {R} (c : multiBitFlag) (v : Z) : M R unit :=
  modify (with_self (fun s => with_nvm (multiBitFlag_set c v (nvm s)) s)).

(** [self.heating], read and written. *)
Definition get_heating {R} : M R bool := m <- get ;; ret (heating (self m)).
Definition set_heating {R} (b : bool) : M R unit :=
  modify (with_self (with_heating b)).

(** The [RGB] setter. *)
Definition set_RGB {R} (c : color) : M R unit :=
  neo <- hardware_get "NEO" ;;
  if neo then
    try_except
      (hw_call (neopixel_set c) ;;
       modify (with_self (with_neopixel c)))
      (fun e => debug_print)
  else
    debug_print.

(** The setters of [burnarm], [burned] and [dist]. *)
Definition set_burnarm {R} (v : bool) : M R unit := set_flag f_burnarm v.
Definition set_burned {R} (v : bool) : M R unit := set_flag f_burned v.
Definition set_dist {R} (v : Z) : M R unit := set_counter c_distance v.

Definition arm_satellite : M unit unit :=
  set_burnarm true ;;
  set_burned false ;;
  set_dist 0 ;;
  print.

Definition disarm_satellite : M unit unit :=
  set_burnarm false ;;
  set_burned true ;;
  set_dist 0 ;;
  print.

Definition all_faces_on : M unit unit :=
  fld <- hardware_get "FLD" ;;
  if fld then
    set_channel_duty (Face 0) 65535 ;;
    hardware_set "Face0" true ;;
    set_channel_duty (Face 1) 65535 ;;
    hardware_set "Face1" true ;;
    set_channel_duty (Face 2) 65535 ;;
    hardware_set "Face2" true ;;
    set_channel_duty (Face 3) 65535 ;;
    hardware_set "Face3" true ;;
    set_channel_duty (Face 4) 65535 ;;
    hardware_set "Face4" true
  else ret tt.

Definition all_faces_off : M unit unit :=
  fld <- hardware_get "FLD" ;;
  if fld then
    set_channel_duty (Face 0) 0 ;;
    time_sleep 0.1 ;;
    hardware_set "Face0" false ;;
    set_channel_duty (Face 1) 0 ;;
    time_sleep 0.1 ;;
    hardware_set "Face1" false ;;
    set_channel_duty (Face 2) 0 ;;
    time_sleep 0.1 ;;
    hardware_set "Face2" false ;;
    set_channel_duty (Face 3) 0 ;;
    time_sleep 0.1 ;;
    hardware_set "Face3" false ;;
    set_channel_duty (Face 4) 0 ;;
    time_sleep 0.1 ;;
    hardware_set "Face4" false
  else ret tt.

(** *** State-of-health getters.  A getter that falls off its end
    returns Python's [None]. *)

Definition battery_voltage : M Q unit :=
  present <- hardware_get "PWR" ;;
  if present then
    try_except
      (voltage <- for_range 50
                    (fun voltage => v <- hw_call (bus_voltage pwr) ;; ret (voltage + v)%Q)
                    0%Q ;;
       return_ (voltage / 50 + 0.2)%Q)
      (fun e => debug_print)
  else
    debug_print.

Definition system_voltage : M Q unit :=
  present <- hardware_get "PWR" ;;
  if present then
    try_except
      (voltage <- for_range 50
                    (fun voltage =>
                       b <- hw_call (bus_voltage pwr) ;;
                       s <- hw_call (shunt_voltage pwr) ;;
                       ret (voltage + (b + s))%Q)
                    0%Q ;;
       return_ (voltage / 50)%Q)
      (fun e => debug_print)
  else
    debug_print.

Definition current_draw : M Q unit :=
  present <- hardware_get "PWR" ;;
  if present then
    try_except
      (idraw <- for_range 50
                  (fun idraw => i <- hw_call (current pwr) ;; ret (idraw + i)%Q)
                  0%Q ;;
       return_ (idraw / 50)%Q)
      (fun e => debug_print)
  else
    debug_print.

Definition charge_voltage : M Q unit :=
  present <- hardware_get "SOLAR" ;;
  if present then
    try_except
      (voltage <- for_range 50
                    (fun voltage => v <- hw_call (bus_voltage solar) ;; ret (voltage + v)%Q)
                    0%Q ;;
       return_ (voltage / 50 + 0.2)%Q)
      (fun e => debug_print)
  else
    debug_print.

Definition charge_current : M Q unit :=
  present <- hardware_get "SOLAR" ;;
  if present then
    try_except
      (ichrg <- for_range 50
                  (fun ichrg => i <- hw_call (current solar) ;; ret (ichrg + i)%Q)
                  0%Q ;;
       return_ (ichrg / 50)%Q)
      (fun e => debug_print)
  else
    debug_print.

(** [self.pct]: reading an attribute that was never assigned raises. *)
Definition get_pct {R} : M R PCT2075 :=
  fun m =>
    match pct (self m) with
    | Some h => (Normal h, m)
    | None => (Raise (AttributeError "pct"), m)
    end.

Definition internal_temperature : M Q unit :=
  _ <- get_pct ;;
  t <- hw_call pct_temperature ;;
  return_ t.

Definition battery_temperature : M Q unit :=
  present <- hardware_get "COUPLE" ;;
  if present then
    v <- hw_call thermocouple_voltage ;;
    let tip := ((v - 1.25) / 0.005)%Q in
    return_ tip
  else
    debug_print.

(** *** Thermal management *)

Definition heater_on : M unit unit :=
  fld <- hardware_get "FLD" ;;
  if fld then
    try_except
      (set_relay_drive_mode PUSH_PULL ;;
       brownout <- get_flag f_brownout ;;
       if brownout then
         ret tt
       else
         set_flag f_brownout true ;;
         set_heating true ;;
         set_relay_value true ;;
         set_RGB orange ;;
         time_sleep 0.25 ;;
         set_channel_duty heater 32767)
      (fun e =>
         debug_print ;;
         set_channel_duty heater 0)
  else
    debug_print.

Definition heater_off : M unit unit :=
  fld <- hardware_get "FLD" ;;
  if fld then
    try_except
      (set_channel_duty heater 0 ;;
       set_relay_value false ;;
       set_relay_drive_mode OPEN_DRAIN ;;
       h <- get_heating ;;
       if h then
         set_heating false ;;
         set_flag f_brownout false ;;
         debug_print ;;
         set_RGB black
       else
         ret tt)
      (fun e =>
         debug_print ;;
         set_channel_duty heater 0)
  else
    debug_print.

(** *** Burn wire *)

(** [burnwire = pwmio.PWMOut(board.BURN_ENABLE, frequency=freq, duty_cycle=0)] *)
Definition new_burnwire {R} (freq : Q) : M R unit :=
  hw_call (PWMOut_new freq) ;;
  modify (with_burnwire
            (Some {| frequency := freq; duty_cycle := 0; deinited := false |})).

(** Reading the local [burnwire]; it is unbound until [new_burnwire] has
    returned. *)
Definition get_burnwire {R} : M R PWMOut :=
  fun m =>
    match burnwire m with
    | Some pw => (Normal pw, m)
    | None => (Raise (UnboundLocalError "burnwire"), m)
    end.

(** [burnwire.duty_cycle = d] *)
Definition set_burnwire_duty {R} (d : Z) : M R unit :=
  pw <- get_burnwire ;;
  hw_call (burnwire_duty d) ;;
  modify (with_burnwire
            (Some {| frequency := frequency pw; duty_cycle := d;
                     deinited := deinited pw |})).

(** [burnwire.deinit()] *)
Definition deinit_burnwire {R} : M R unit :=
  pw <- get_burnwire ;;
  hw_call burnwire_deinit ;;
  modify (with_burnwire
            (Some {| frequency := frequency pw; duty_cycle := duty_cycle pw;
                     deinited := true |})).

(** The body of [burn], run in a frame whose locals are already
    unbound. *)
Definition burn_body (burn_num : string) (dutycycle freq duration : Q) : M bool unit :=
  try_finally
    (try_except
       (let dtycycl := dtycycl_of dutycycle in
        debug_print ;;
        debug_print ;;
        (if py_in "1" burn_num then
           new_burnwire freq
         else
           return_ false) ;;
        set_relay_drive_mode PUSH_PULL ;;
        set_relay_value true ;;
        set_RGB orange ;;
        time_sleep 0.5 ;;
        set_burnwire_duty dtycycl ;;
        time_sleep duration ;;
        set_relay_value false ;;
        set_burnwire_duty 0 ;;
        set_RGB black ;;
        set_relay_drive_mode OPEN_DRAIN ;;
        return_ true)
       (fun e =>
          debug_print ;;
          return_ false))
    (set_relay_value false ;;
     set_burnwire_duty 0 ;;
     set_RGB black ;;
     deinit_burnwire ;;
     set_relay_drive_mode OPEN_DRAIN).

(** [burn(burn_num, dutycycle, freq, duration)]: a call starts with a
    fresh frame, so [burnwire] is unbound on entry. *)
Definition burn (burn_num : string) (dutycycle freq duration : Q) : M bool unit :=
  fun m => burn_body burn_num dutycycle freq duration (with_burnwire None m).

End Driver.

(** ** Boards and states used in examples *)

(** A board on which every call succeeds and every reading is [v]. *)
Definition steady (v : Q) : Board := fun _ _ => Ok v.

(** A board on which exactly the calls satisfying [bad] raise. *)
Definition faulty (bad : hw_op -> bool) : Board :=
  fun _ op => if bad op then Fault else Ok 0%Q.

Definition is_PWMOut_new (op : hw_op) : bool :=
  match op with PWMOut_new _ => true | _ => false end.
Definition is_burnwire_duty (op : hw_op) : bool :=
  match op with burnwire_duty _ => true | _ => false end.
Definition is_face3_duty (op : hw_op) : bool :=
  match op with channel_duty 3 _ => true | _ => false end.

(** The capability table as [__init__] leaves it when every peripheral
    came up. *)
Definition all_present : gmap string bool :=
  list_to_map
    [("WDT", false); ("NEO", true); ("TCA", true); ("SOLAR", true);
     ("PWR", true); ("FLD", true); ("TEMP", true); ("COUPLE", true);
     ("CAN", true); ("Face0", true); ("Face1", true); ("Face2", true);
     ("Face3", true); ("Face4", true)].

Definition faces_on : gmap nat Z :=
  list_to_map [(0%nat, 65535); (1%nat, 65535); (2%nat, 65535);
               (3%nat, 65535); (4%nat, 65535); (15%nat, 0)].

(** The object after a clean cold boot: blue indicator, relay in its
    open-drain default, every flag clear. *)
Definition booted : Satellite :=
  {| hardware := all_present; heating := false; nvm := ∅;
     _relayA := {| drive_mode := OPEN_DRAIN; value := false |};
     neopixel := (0, 0, 255); channels := faces_on;
     pct := Some (PCT2075_at 79) |}.

Definition fresh (s : Satellite) : Machine :=
  {| self := s; calls := []; burnwire := None |}.

(** ** Frames *)

(** A block keeps [part] when that part of the object is the same after
    the block as before it, however the block ends. *)
Definition keeps {X R A} (part : Satellite -> X) (c : M R A) : Prop :=
  forall m, part (self (snd (c m))) = part (self m).

(** ** Arming and firing *)

(** The [burnarm], [burned] and [dist] properties. *)
Definition burnarm (s : Satellite) : bool := bitFlag_get f_burnarm (nvm s).
Definition burned (s : Satellite) : bool := bitFlag_get f_burned (nvm s).
Definition dist (s : Satellite) : Z := multiBitFlag_get c_distance (nvm s).

Definition armed_and_burned (s : Satellite) : Prop :=
  burnarm s = true /\ burned s = true.

(** What flight software can call on the deployment mechanism. *)
Inductive command :=
| Arm
| Disarm
| Fire (burn_num : string) (dutycycle freq duration : Q).

(** One call; the caller goes on whether the call returned or raised. *)
Definition exec (board : Board) (c : command) (m : Machine) : Machine :=
  match c with
  | Arm => snd (arm_satellite m)
  | Disarm => snd (disarm_satellite m)
  | Fire burn_num dutycycle freq duration =>
      snd (burn board burn_num dutycycle freq duration m)
  end.

(** The states a sequence of calls passes through, one per call. *)
Fixpoint reached (board : Board) (cs : list command) (m : Machine) : list Machine :=
  match cs with
  | [] => []
  | c :: cs' => let m' := exec board c m in m' :: reached board cs' m'
  end.

(** ** Heater *)

(** The volatile [heating] attribute and the persistent [f_brownout] flag
    say the same thing. *)
Definition heater_flags_agree (s : Satellite) : Prop :=
  heating s = bitFlag_get f_brownout (nvm s).

(** [heater_on] as a no-op: nothing is asked of the peripherals and the
    object is left as it was. *)
Definition heater_on_is_noop (board : Board) (m : Machine) : Prop :=
  calls (snd (heater_on board m)) = calls m /\
  self (snd (heater_on board m)) = self m.

(** The object after a reboot that found the guard flag still set. *)
Definition rebooted_in_brownout : Satellite :=
  with_nvm (bitFlag_set f_brownout true ∅) booted.

(** ** Face power-down *)

(** The run of [all_faces_off] in which powering face 3 down raises. *)
Definition face3_power_down_raises (board : Board) (m : Machine) : Prop :=
  fst (all_faces_off board m) = Raise (HardwareError (channel_duty (Face 3) 0)).

(** Carrying on after a fault on face 3: faces 0 to 2 recorded off, and
    face 4 powered down and recorded off all the same. *)
Definition carries_on_past_face3 (board : Board) (m : Machine) : Prop :=
  let s' := self (snd (all_faces_off board m)) in
  hardware s' !! "Face0" = Some false /\
  hardware s' !! "Face1" = Some false /\
  hardware s' !! "Face2" = Some false /\
  channels s' !! Face 4 = Some 0 /\
  hardware s' !! "Face4" = Some false.

(** ** Telemetry *)

(** The calls a block makes when run from [m]. *)
Definition issued {R A} (c : M R A) (m : Machine) : list hw_op :=
  drop (length (calls m)) (calls (snd (c m))).

(** A getter reporting "unavailable": it falls off its end (Python's
    [None]) and has asked nothing of the peripherals. *)
Definition unavailable_without_reads (getter : M Q unit) (m : Machine) : Prop :=
  fst (getter m) = Normal tt /\ calls (snd (getter m)) = calls m.

Definition with_pct (p : option PCT2075) (s : Satellite) : Satellite :=
  {| hardware := hardware s; heating := heating s; nvm := nvm s; _relayA := _relayA s;
     neopixel := neopixel s; channels := channels s; pct := p |}.

(** The object after a boot in which the PCT2075 constructor raised:
    [self.pct] was never assigned and the table entry stayed false. *)
Definition booted_without_pct : Satellite :=
  with_pct None (with_hardware (<["TEMP" := false]> all_present) booted).

Definition Qsum (vs : list Q) : Q := fold_right Qplus 0%Q vs.

(** The arithmetic mean of a non-empty list of readings. *)
Definition mean (vs : list Q) : Q := (Qsum vs / inject_Z (Z.of_nat (length vs)))%Q.

(** ** Duty conversion, as the specification words it *)

(** Python's one-argument [round]: to the nearest integer, ties to even. *)
Definition py_round (x : Q) : Z :=
  let f := Qfloor x in
  match ((x - inject_Z f) ?= 1 # 2)%Q with
  | Lt => f
  | Gt => f + 1
  | Eq => if Z.even f then f else f + 1
  end.

(** [round(duty_percent/100 * 0xFFFF)] *)
Definition rounded_duty (duty_percent : Q) : Z :=
  py_round ((duty_percent / 100) * 65535)%Q.

(** The duty first written to the burn-wire PWM output among [ops]. *)
Definition applied_duty (ops : list hw_op) : option Z :=
  head (omap (fun op => match op with burnwire_duty d => Some d | _ => None end) ops).

(** [burn] applying the rounded duty in a run from [m]. *)
Definition applies_rounded_duty (board : Board) (duty_percent : Q) (m : Machine) : Prop :=
  applied_duty (issued (burn board "1" duty_percent 1000 1) m)
    = Some (rounded_duty duty_percent).

(** ** Burn wire: what a call leaves behind *)

(** The state [burn] is to leave behind: relay low and back in its
    open-drain default, PWM duty zero and the PWM output released,
    indicator dark. *)
Definition safe_after_burn (m : Machine) : Prop :=
  value (_relayA (self m)) = false /\
  (exists pw, burnwire m = Some pw /\ duty_cycle pw = 0 /\ deinited pw = true) /\
  neopixel (self m) = black /\
  drive_mode (_relayA (self m)) = OPEN_DRAIN.

(** A rejection that touches nothing: [False] is returned and no call
    has been made. *)
Definition rejected_untouched (board : Board) (burn_num : string)
    (dutycycle freq duration : Q) (m : Machine) : Prop :=
  fst (burn board burn_num dutycycle freq duration m) = Return false /\
  issued (burn board burn_num dutycycle freq duration) m = [].

(** The calls that only ever de-energise: relay low, indicator dark,
    relay back to open-drain. *)
Definition is_release (op : hw_op) : bool :=
  match op with
  | relay_value false => true
  | neopixel_set (0, 0, 0) => true
  | relay_drive_mode OPEN_DRAIN => true
  | _ => false
  end.

(** ** Running blocks symbolically *)

Arguments bind {R A B} c k m /.
Arguments try_except {R A} body handler m /.
Arguments try_finally {R A} body fin m /.
Arguments ret {R A} a m /.
Arguments return_ {R A} r m /.
Arguments raise {R A} e m /.
Arguments get {R} m /.
Arguments modify {R} f m /.
Arguments hw_call board {R} op m /.
Arguments hardware_get {R} key m /.
Arguments get_burnwire {R} m /.
Arguments get_pct {R} m /.
Arguments debug_print {R} /.
Arguments print {R} /.
Arguments time_sleep board {R} secs /.
Arguments hardware_set {R} key b /.
Arguments set_relay_drive_mode board {R} d /.
Arguments set_relay_value board {R} v /.
Arguments set_channel_duty board {R} ch d /.
Arguments get_flag {R} f /.
Arguments set_flag {R} f v /.
Arguments set_counter {R} c v /.
Arguments get_heating {R} /.
Arguments set_heating {R} b /.
Arguments set_RGB board {R} c /.
Arguments new_burnwire board {R} freq /.
Arguments set_burnwire_duty board {R} d /.
Arguments deinit_burnwire board {R} /.

(** Runs the statements of a block as far as they do not depend on the
    board, the capability table or the flag register. *)
Ltac py_eval :=
  cbn -[lookup insert bitFlag_get bitFlag_set multiBitFlag_set multiBitFlag_get
        Qplus Qdiv Qmult Qminus dtycycl_of py_in].

(** Splits on what the board answers to the next call. *)
Ltac on_board :=
  match goal with
  | |- context [match ?b ?t ?o with Ok _ => _ | Fault => _ end] =>
      destruct (b t o) eqn:?
  end.

(** Splits on the next entry read from the capability table. *)
Ltac on_table :=
  match goal with
  | |- context [match ?h !! ?k with Some _ => _ | None => _ end] =>
      destruct (h !! k) as [[|]|] eqn:?
  end.

Ltac py_run := py_eval; repeat (first [on_board | on_table]; py_eval).

(** Closes a case in which the board raised on a call assumed to go
    through. *)
Ltac board_cannot_fault :=
  match goal with
  | H : forall t, ?b t ?op <> Fault, E : ?b _ ?op = Fault |- _ =>
      exfalso; exact (H _ E)
  | H : Fault <> Fault |- _ =>
      exfalso; exact (H eq_refl)
  end.

(** ** Further definitions: call sequences, heater histories, boot *)


(** The calls of [all_faces_off]: each power-down is followed by its
    settle delay. *)
Definition faces_off_calls : list hw_op :=
  [channel_duty (Face 0) 0; sleep 0.1; channel_duty (Face 1) 0; sleep 0.1;
   channel_duty (Face 2) 0; sleep 0.1; channel_duty (Face 3) 0; sleep 0.1;
   channel_duty (Face 4) 0; sleep 0.1].

(** The calls of [heater_on] when it engages and nothing raises; the
    indicator write is made only with the NeoPixel present. *)
Definition heater_on_calls (neo : bool) : list hw_op :=
  [relay_drive_mode PUSH_PULL; relay_value true] ++
  (if neo then [neopixel_set orange] else []) ++
  [sleep 0.25; channel_duty heater 32767].

(** The three calls [heater_off] always starts with. *)
Definition heater_off_calls : list hw_op :=
  [channel_duty heater 0; relay_value false; relay_drive_mode OPEN_DRAIN].

(** What flight software can call on the heater. *)
Inductive heater_command := HeaterOn | HeaterOff.

Definition exec_heater (board : Board) (c : heater_command) (m : Machine) : Machine :=
  match c with
  | HeaterOn => snd (heater_on board m)
  | HeaterOff => snd (heater_off board m)
  end.

Fixpoint reached_heater (board : Board) (cs : list heater_command) (m : Machine)
  : list Machine :=
  match cs with
  | [] => []
  | c :: cs' => let m' := exec_heater board c m in m' :: reached_heater board cs' m'
  end.

(** The guard flag is set while the volatile [heating] attribute is not:
    the state a reboot leaves when it interrupts a heating phase. *)
Definition heater_locked_out (s : Satellite) : Prop :=
  heating s = false /\ bitFlag_get f_brownout (nvm s) = true.

(** Reading a persistent counter ([self.c_xxx]). *)
Definition get_counter {R} (c : multiBitFlag) : M R Z :=
  bind get (fun m => ret (multiBitFlag_get c (nvm (self m)))).

(** The two corrections [__init__] makes to the persistent registers:
    [if self.c_boot > 200: self.c_boot = 0] and
    [if self.f_softboot: self.f_softboot = False]. *)
Definition boot_corrections : M unit unit :=
  bind (get_counter c_boot) (fun boots =>
  bind (if boots >? 200 then set_counter c_boot 0 else ret tt) (fun _ =>
  bind (get_flag f_softboot) (fun soft =>
  if soft then set_flag f_softboot false else ret tt))).

Arguments get_counter {R} c /.

(** The calls of a [burn] on the wired channel that runs to its
    [return True]: allocation, relay engagement, settle, pulse, the
    clean-up of the [try] body and the clean-up of the [finally] block.
    The indicator writes are made only with the NeoPixel present. *)
Definition burn_calls (neo : bool) (dutycycle freq duration : Q) : list hw_op :=
  let indicator c := if neo then [neopixel_set c] else [] in
  [PWMOut_new freq; relay_drive_mode PUSH_PULL; relay_value true] ++
  indicator orange ++
  [sleep 0.5; burnwire_duty (dtycycl_of dutycycle); sleep duration;
   relay_value false; burnwire_duty 0] ++
  indicator black ++
  [relay_drive_mode OPEN_DRAIN; relay_value false; burnwire_duty 0] ++
  indicator black ++
  [burnwire_deinit; relay_drive_mode OPEN_DRAIN].

(** ** Persistent flags: reading after writing *)

Lemma nvm_byte_insert_eq (store : gmap nat Z) r x :
  nvm_byte (<[r := x]> store) r = x.
Proof. unfold nvm_byte. by rewrite lookup_insert_eq. Qed.

Lemma nvm_byte_insert_ne (store : gmap nat Z) r r' x :
  r ≠ r' → nvm_byte (<[r := x]> store) r' = nvm_byte store r'.
Proof. intros Hne. unfold nvm_byte. by rewrite lookup_insert_ne. Qed.

Lemma testbit_one_shifted b c :
  0 <= b -> 0 <= c -> Z.testbit (Z.shiftl 1 b) c = bool_decide (c = b).
Proof.
  intros Hb Hc. rewrite Z.shiftl_1_l, Z.pow2_bits_eqb by assumption.
  case_bool_decide as Heq.
  - subst c. apply Z.eqb_refl.
  - apply Z.eqb_neq. congruence.
Qed.

Lemma bitFlag_get_set_eq f v store :
  0 <= bf_bit f -> bitFlag_get f (bitFlag_set f v store) = v.
Proof.
  intros Hb. unfold bitFlag_get, bitFlag_set. rewrite nvm_byte_insert_eq.
  destruct v.
  - rewrite Z.lor_spec, testbit_one_shifted by assumption.
    rewrite bool_decide_eq_true_2 by reflexivity. apply orb_true_r.
  - rewrite Z.land_spec, Z.lnot_spec, testbit_one_shifted by assumption.
    rewrite bool_decide_eq_true_2 by reflexivity. apply andb_false_r.
Qed.

Lemma bitFlag_get_set_ne f g v store :
  0 <= bf_bit f -> 0 <= bf_bit g ->
  bf_register f ≠ bf_register g ∨ bf_bit f ≠ bf_bit g ->
  bitFlag_get g (bitFlag_set f v store) = bitFlag_get g store.
Proof.
  intros Hf Hg Hne. unfold bitFlag_get, bitFlag_set.
  destruct (decide (bf_register f = bf_register g)) as [Hr | Hr].
  - destruct Hne as [Hne | Hne]; [done |].
    rewrite Hr, nvm_byte_insert_eq.
    destruct v.
    + rewrite Z.lor_spec, testbit_one_shifted by assumption.
      rewrite bool_decide_eq_false_2 by congruence. apply orb_false_r.
    + rewrite Z.land_spec, Z.lnot_spec, testbit_one_shifted by assumption.
      rewrite bool_decide_eq_false_2 by congruence. apply andb_true_r.
  - by rewrite nvm_byte_insert_ne.
Qed.

Lemma bitFlag_get_counter_set f c v store :
  bf_register f ≠ mbf_register c ->
  bitFlag_get f (multiBitFlag_set c v store) = bitFlag_get f store.
Proof.
  intros Hne. unfold bitFlag_get, multiBitFlag_set.
  by rewrite nvm_byte_insert_ne.
Qed.

Lemma multiBitFlag_get_set_zero c store :
  0 <= mbf_lowest_bit c -> 0 <= mbf_num_bits c ->
  multiBitFlag_get c (multiBitFlag_set c 0 store) = 0.
Proof.
  intros Hl Hn. unfold multiBitFlag_get, multiBitFlag_set.
  rewrite nvm_byte_insert_eq.
  assert (Hmin : Z.min (Z.max 0 0) (Z.ones (mbf_num_bits c)) = 0).
  { pose proof (Z.ones_equiv (mbf_num_bits c)).
    pose proof (Z.pow_pos_nonneg 2 (mbf_num_bits c)). lia. }
  rewrite Hmin, Z.shiftl_0_l, Z.lor_0_r.
  apply Z.bits_inj'. intros n Hn0.
  rewrite Z.land_spec, Z.shiftr_spec, Z.land_spec, Z.lnot_spec, Z.bits_0 by lia.
  rewrite Z.shiftl_spec by lia.
  replace (n + mbf_lowest_bit c - mbf_lowest_bit c) with n by lia.
  destruct (Z.testbit (Z.ones (mbf_num_bits c)) n);
    [ rewrite andb_false_r | rewrite andb_false_r ]; reflexivity.
Qed.

(** ** Frame reasoning: parts of the object a block never writes *)

Section Keeps.

Context {X : Type} (part : Satellite -> X).

Lemma keeps_ret {R A} (a : A) : keeps part (@ret R A a).
Proof. intros m. reflexivity. Qed.

Lemma keeps_return {R A} (r : R) : keeps part (@return_ R A r).
Proof. intros m. reflexivity. Qed.

Lemma keeps_raise {R A} (e : exn) : keeps part (@raise R A e).
Proof. intros m. reflexivity. Qed.

Lemma keeps_get {R} : keeps part (@get R).
Proof. intros m. reflexivity. Qed.

Lemma keeps_bind {R A B} (c : M R A) (k : A -> M R B) :
  keeps part c -> (forall a, keeps part (k a)) -> keeps part (bind c k).
Proof.
  intros Hc Hk m. unfold bind. specialize (Hc m).
  destruct (c m) as [[a | r | e] m']; simpl in *; try assumption.
  rewrite Hk. assumption.
Qed.

Lemma keeps_try_except {R A} (body : M R A) (handler : exn -> M R A) :
  keeps part body -> (forall e, keeps part (handler e)) -> keeps part (try_except body handler).
Proof.
  intros Hb Hh m. unfold try_except. specialize (Hb m).
  destruct (body m) as [[a | r | e] m']; simpl in *; try assumption.
  rewrite Hh. assumption.
Qed.

Lemma keeps_try_finally {R A} (body : M R A) (fin : M R unit) :
  keeps part body -> keeps part fin -> keeps part (try_finally body fin).
Proof.
  intros Hb Hf m. unfold try_finally. specialize (Hb m).
  destruct (body m) as [pending m']. specialize (Hf m').
  destruct (fin m') as [[a | r | e] m'']; simpl in *; congruence.
Qed.

Lemma keeps_if {R A} (b : bool) (c1 c2 : M R A) :
  keeps part c1 -> keeps part c2 -> keeps part (if b then c1 else c2).
Proof. destruct b; auto. Qed.

Lemma keeps_hw_call {R} board op : keeps part (@hw_call board R op).
Proof. intros m. unfold hw_call. destruct (board (calls m) op); reflexivity. Qed.

Lemma keeps_time_sleep {R} board secs : keeps part (@time_sleep board R secs).
Proof.
  apply keeps_bind; [apply keeps_hw_call | intros; apply keeps_ret].
Qed.

Lemma keeps_hardware_get {R} key : keeps part (@hardware_get R key).
Proof.
  intros m. unfold hardware_get. destruct (hardware (self m) !! key); reflexivity.
Qed.

Lemma keeps_modify_self {R} (f : Satellite -> Satellite) :
  (forall s, part (f s) = part s) -> keeps part (@modify R (with_self f)).
Proof. intros Hf m. apply Hf. Qed.

Lemma keeps_modify_burnwire {R} b : keeps part (@modify R (with_burnwire b)).
Proof. intros m. reflexivity. Qed.

Lemma keeps_get_burnwire {R} : keeps part (@get_burnwire R).
Proof.
  intros m. unfold get_burnwire. destruct (burnwire m); reflexivity.
Qed.

Lemma keeps_for_range {R A} n (body : A -> M R A) acc :
  (forall a, keeps part (body a)) -> keeps part (for_range n body acc).
Proof.
  intros Hb. revert acc.
  induction n as [| n IH]; intros acc; simpl.
  - apply keeps_ret.
  - apply keeps_bind; [apply Hb | intros; apply IH].
Qed.

End Keeps.

Create HintDb keeps.
#[local] Hint Resolve keeps_ret keeps_return keeps_raise keeps_get keeps_hw_call
  keeps_time_sleep keeps_hardware_get keeps_modify_burnwire keeps_get_burnwire
  : keeps.

(** The indicator setter only ever touches the indicator. *)
Lemma keeps_set_RGB {X R} (part : Satellite -> X) board c :
  (forall c' s, part (with_neopixel c' s) = part s) ->
  keeps part (@set_RGB board R c).
Proof.
  intros Hp. unfold set_RGB.
  apply keeps_bind; [auto with keeps |].
  intros neo. apply keeps_if; [| apply keeps_ret].
  apply keeps_try_except; [| intros; apply keeps_ret].
  apply keeps_bind; [auto with keeps |].
  intros _. apply keeps_modify_self. intros s. apply Hp.
Qed.

(** [burn] writes nothing of the object but the relay and the indicator. *)
Lemma burn_keeps {X} (part : Satellite -> X) board burn_num dutycycle freq duration :
  (forall r s, part (with_relayA r s) = part s) ->
  (forall c s, part (with_neopixel c s) = part s) ->
  keeps part (burn board burn_num dutycycle freq duration).
Proof.
  intros Hrelay Hneo m. unfold burn.
  change (part (self m)) with (part (self (with_burnwire None m))).
  generalize (with_burnwire None m). clear m.
  change (keeps part (burn_body board burn_num dutycycle freq duration)).
  unfold burn_body, new_burnwire, set_burnwire_duty, deinit_burnwire,
    set_relay_drive_mode, set_relay_value, debug_print.
  repeat first
    [ apply keeps_set_RGB; assumption
    | apply keeps_try_finally
    | apply keeps_try_except
    | apply keeps_bind
    | apply keeps_if
    | apply keeps_modify_self; intros; apply Hrelay
    | solve [auto with keeps]
    | match goal with |- forall _, _ => intro end ].
Qed.

(** ** Arm, disarm, fire *)

Lemma arm_satellite_nvm m :
  self (snd (arm_satellite m)) =
  with_nvm
    (multiBitFlag_set c_distance 0
       (bitFlag_set f_burned false (bitFlag_set f_burnarm true (nvm (self m)))))
    (self m).
Proof. reflexivity. Qed.

Lemma disarm_satellite_nvm m :
  self (snd (disarm_satellite m)) =
  with_nvm
    (multiBitFlag_set c_distance 0
       (bitFlag_set f_burned true (bitFlag_set f_burnarm false (nvm (self m)))))
    (self m).
Proof. reflexivity. Qed.

Lemma arm_satellite_flags m :
  burnarm (self (snd (arm_satellite m))) = true /\
  burned (self (snd (arm_satellite m))) = false /\
  dist (self (snd (arm_satellite m))) = 0.
Proof.
  rewrite arm_satellite_nvm. unfold burnarm, burned, dist, with_nvm, nvm.
  repeat split.
  - rewrite bitFlag_get_counter_set by (cbv; lia).
    rewrite bitFlag_get_set_ne by (cbv; first [discriminate | right; discriminate]).
    apply bitFlag_get_set_eq. cbv. discriminate.
  - rewrite bitFlag_get_counter_set by (cbv; lia).
    apply bitFlag_get_set_eq. cbv. discriminate.
  - apply multiBitFlag_get_set_zero; cbv; discriminate.
Qed.

Lemma disarm_satellite_flags m :
  burnarm (self (snd (disarm_satellite m))) = false /\
  burned (self (snd (disarm_satellite m))) = true /\
  dist (self (snd (disarm_satellite m))) = 0.
Proof.
  rewrite disarm_satellite_nvm. unfold burnarm, burned, dist, with_nvm, nvm.
  repeat split.
  - rewrite bitFlag_get_counter_set by (cbv; lia).
    rewrite bitFlag_get_set_ne by (cbv; first [discriminate | right; discriminate]).
    apply bitFlag_get_set_eq. cbv. discriminate.
  - rewrite bitFlag_get_counter_set by (cbv; lia).
    apply bitFlag_get_set_eq. cbv. discriminate.
  - apply multiBitFlag_get_set_zero; cbv; discriminate.
Qed.

(** [arm()] followed by [disarm()] leaves the mechanism disarmed. *)
Lemma arm_then_disarm board m :
  let s := self (exec board Disarm (exec board Arm m)) in
  burnarm s = false /\ burned s = true /\ dist s = 0.
Proof. apply disarm_satellite_flags. Qed.

Lemma burn_keeps_nvm board burn_num dutycycle freq duration m :
  nvm (self (snd (burn board burn_num dutycycle freq duration m))) = nvm (self m).
Proof. apply (burn_keeps nvm); reflexivity. Qed.

Lemma exec_exclusive board c m :
  ~ armed_and_burned (self m) -> ~ armed_and_burned (self (exec board c m)).
Proof.
  intros Hm [Ha Hb]. destruct c as [| | burn_num dutycycle freq duration]; unfold exec in Ha, Hb.
  - destruct (arm_satellite_flags m) as (_ & Hb' & _). congruence.
  - destruct (disarm_satellite_flags m) as (Ha' & _ & _). congruence.
  - unfold burnarm, burned in *. rewrite burn_keeps_nvm in Ha, Hb.
    apply Hm. split; assumption.
Qed.

(** C6: starting from a state in which [f_burnarm] and [f_burned] are not
    both set, no state reached by any finite sequence of [arm_satellite],
    [disarm_satellite] and [burn] calls has both set, whatever the
    peripherals do during the [burn] calls. *)
Theorem armed_and_burned_never_reached board cs m :
  ~ armed_and_burned (self m) ->
  Forall (fun m' => ~ armed_and_burned (self m')) (m :: reached board cs m).
Proof.
  intros Hm. constructor; [assumption |].
  revert m Hm. induction cs as [| c cs IH]; intros m Hm; simpl.
  - constructor.
  - pose proof (exec_exclusive board c m Hm) as Hstep.
    constructor; [assumption | apply IH; assumption].
Qed.

Lemma armed_and_burned_never_reached_witness :
  ~ armed_and_burned (self (fresh booted)) /\
  Forall (fun m' => ~ armed_and_burned (self m'))
    (fresh booted ::
     reached (faulty is_burnwire_duty)
       [Disarm; Arm; Fire "1" 50 1000 1; Fire "2" 50 1000 1; Disarm; Arm]
       (fresh booted)).
Proof.
  assert (H : ~ armed_and_burned (self (fresh booted))).
  { intros [H _]. vm_compute in H. discriminate. }
  split; [exact H | apply (armed_and_burned_never_reached _ _ _ H)].
Defined.

(** ** Heater *)

(** C10: with the LED driver present, [heater_on] and [heater_off] each
    keep [heating] equal to [f_brownout], whether they complete or a
    peripheral call raises inside them. *)
Theorem heater_calls_keep_flags_agreeing board m :
  hardware (self m) !! "FLD" = Some true ->
  heater_flags_agree (self m) ->
  heater_flags_agree (self (snd (heater_on board m))) /\
  heater_flags_agree (self (snd (heater_off board m))).
Proof.
  unfold heater_flags_agree. intros Hfld Hagree. split.
  - unfold heater_on. py_eval. rewrite Hfld. py_eval.
    on_board; py_eval.
    + destruct (bitFlag_get f_brownout (nvm (self m))) eqn:Hguard.
      * py_eval. congruence.
      * py_run; rewrite ?bitFlag_get_set_eq by (cbv; discriminate); congruence.
    + py_run; congruence.
  - unfold heater_off. py_eval. rewrite Hfld. py_eval.
    on_board; py_eval.
    + on_board; py_eval.
      * on_board; py_eval.
        -- destruct (heating (self m)) eqn:Hheat.
           ++ py_run; rewrite ?bitFlag_get_set_eq by (cbv; discriminate); congruence.
           ++ py_eval. congruence.
        -- py_run; congruence.
      * py_run; congruence.
    + py_run; congruence.
Qed.

Lemma heater_calls_keep_flags_agreeing_witness :
  hardware (self (fresh booted)) !! "FLD" = Some true /\
  heater_flags_agree (self (fresh booted)) /\
  heater_flags_agree (self (snd (heater_on (faulty is_face3_duty) (fresh booted)))) /\
  heater_flags_agree (self (snd (heater_off (faulty is_face3_duty) (fresh booted)))).
Proof.
  assert (Hfld : hardware (self (fresh booted)) !! "FLD" = Some true)
    by (vm_compute; reflexivity).
  assert (Hagree : heater_flags_agree (self (fresh booted)))
    by (vm_compute; reflexivity).
  split; [exact Hfld |]. split; [exact Hagree |].
  exact (heater_calls_keep_flags_agreeing _ _ Hfld Hagree).
Defined.

(** C4 as stated does not hold: after a reboot with the guard flag still
    set, [heater_on] asks for the relay to be switched to push-pull and
    the relay is left in that mode. *)
Lemma heater_on_guarded_not_noop :
  hardware rebooted_in_brownout !! "FLD" = Some true /\
  bitFlag_get f_brownout (nvm rebooted_in_brownout) = true /\
  ~ heater_on_is_noop (steady 0) (fresh rebooted_in_brownout).
Proof.
  split; [vm_compute; reflexivity |].
  split; [vm_compute; reflexivity |].
  intros [Hcalls Hself].
  apply (f_equal (fun s => drive_mode (_relayA s))) in Hself.
  vm_compute in Hself. discriminate.
Qed.

(** C4, amended: with the LED driver present and [f_brownout] already
    set, [heater_on] leaves [heating], the flag register, the indicator,
    the relay value and the capability table as they were.  It does
    switch the relay to push-pull first: when that call succeeds it is
    the only call made and the heater duty is untouched; when it raises,
    the handler's zeroing of the heater duty is the only further call. *)
Theorem heater_on_guarded_only_switches_relay board m :
  hardware (self m) !! "FLD" = Some true ->
  bitFlag_get f_brownout (nvm (self m)) = true ->
  let m' := snd (heater_on board m) in
  heating (self m') = heating (self m) /\
  nvm (self m') = nvm (self m) /\
  neopixel (self m') = neopixel (self m) /\
  value (_relayA (self m')) = value (_relayA (self m)) /\
  hardware (self m') = hardware (self m) /\
  match board (calls m) (relay_drive_mode PUSH_PULL) with
  | Ok _ =>
      fst (heater_on board m) = Normal tt /\
      calls m' = calls m ++ [relay_drive_mode PUSH_PULL] /\
      drive_mode (_relayA (self m')) = PUSH_PULL /\
      channels (self m') = channels (self m)
  | Fault =>
      calls m' = calls m ++ [relay_drive_mode PUSH_PULL; channel_duty heater 0] /\
      drive_mode (_relayA (self m')) = drive_mode (_relayA (self m))
  end.
Proof.
  intros Hfld Hguard. unfold heater_on. py_eval. rewrite Hfld. py_eval.
  destruct (board (calls m) (relay_drive_mode PUSH_PULL)) eqn:Hswitch; py_eval.
  - rewrite Hguard. py_eval. repeat split; reflexivity.
  - on_board; py_eval; rewrite <- app_assoc; repeat split; reflexivity.
Qed.

Lemma heater_on_guarded_only_switches_relay_witness :
  hardware rebooted_in_brownout !! "FLD" = Some true /\
  bitFlag_get f_brownout (nvm rebooted_in_brownout) = true /\
  calls (snd (heater_on (steady 0) (fresh rebooted_in_brownout))) =
    [relay_drive_mode PUSH_PULL].
Proof.
  assert (Hfld : hardware (self (fresh rebooted_in_brownout)) !! "FLD" = Some true)
    by (vm_compute; reflexivity).
  assert (Hguard : bitFlag_get f_brownout (nvm (self (fresh rebooted_in_brownout))) = true)
    by (vm_compute; reflexivity).
  split; [exact Hfld |]. split; [exact Hguard |].
  pose proof (heater_on_guarded_only_switches_relay (steady 0) _ Hfld Hguard) as H.
  cbv zeta in H. destruct H as (_ & _ & _ & _ & _ & H).
  change (steady 0 (calls (fresh rebooted_in_brownout)) (relay_drive_mode PUSH_PULL))
    with (Ok 0%Q) in H.
  destruct H as (_ & H & _). exact H.
Defined.

(** ** Face power-down *)

(** C7 as stated does not hold: with every face on and a board whose
    face-3 channel raises, the run stops there; face 4 keeps its full
    duty and stays recorded on. *)
Lemma all_faces_off_aborts_at_face3 :
  hardware (self (fresh booted)) !! "FLD" = Some true /\
  face3_power_down_raises (faulty is_face3_duty) (fresh booted) /\
  ~ carries_on_past_face3 (faulty is_face3_duty) (fresh booted).
Proof.
  split; [vm_compute; reflexivity |].
  split; [vm_compute; reflexivity |].
  intros (_ & _ & _ & Hduty & _).
  vm_compute in Hduty. discriminate.
Qed.

(** C7, amended: with the LED driver present, a run of [all_faces_off]
    in which the power-down of face 3 raises leaves faces 0, 1 and 2
    recorded off and stops there: the fault leaves the method, no call is
    made for face 4, and the duty and table entries of faces 3 and 4 are
    as they were before the run. *)
Theorem all_faces_off_stops_at_face3 board m :
  hardware (self m) !! "FLD" = Some true ->
  face3_power_down_raises board m ->
  let m' := snd (all_faces_off board m) in
  hardware (self m') !! "Face0" = Some false /\
  hardware (self m') !! "Face1" = Some false /\
  hardware (self m') !! "Face2" = Some false /\
  hardware (self m') !! "Face3" = hardware (self m) !! "Face3" /\
  hardware (self m') !! "Face4" = hardware (self m) !! "Face4" /\
  channels (self m') !! Face 3 = channels (self m) !! Face 3 /\
  channels (self m') !! Face 4 = channels (self m) !! Face 4 /\
  calls m' =
    calls m ++ [channel_duty (Face 0) 0; sleep 0.1; channel_duty (Face 1) 0; sleep 0.1;
                channel_duty (Face 2) 0; sleep 0.1; channel_duty (Face 3) 0].
Proof.
  unfold face3_power_down_raises, all_faces_off.
  intros Hfld. py_eval. rewrite Hfld.
  py_eval. repeat (on_board; py_eval); intros Hraise; try discriminate Hraise.
  repeat rewrite <- app_assoc.
  repeat split; try reflexivity;
    repeat first [ rewrite lookup_insert_eq; reflexivity
                 | rewrite lookup_insert_ne by discriminate ];
    reflexivity.
Qed.

Lemma all_faces_off_stops_at_face3_witness :
  hardware (self (fresh booted)) !! "FLD" = Some true /\
  face3_power_down_raises (faulty is_face3_duty) (fresh booted) /\
  hardware (self (snd (all_faces_off (faulty is_face3_duty) (fresh booted)))) !! "Face4"
    = hardware (self (fresh booted)) !! "Face4".
Proof.
  assert (Hfld : hardware (self (fresh booted)) !! "FLD" = Some true)
    by (vm_compute; reflexivity).
  assert (Hraise : face3_power_down_raises (faulty is_face3_duty) (fresh booted))
    by (vm_compute; reflexivity).
  split; [exact Hfld |]. split; [exact Hraise |].
  exact (proj1 (proj2 (proj2 (proj2 (proj2
    (all_faces_off_stops_at_face3 _ _ Hfld Hraise)))))).
Defined.

(** ** Telemetry getters *)

(** The six getters that consult the capability table report
    "unavailable", without a single read, when their entry is false. *)
Lemma guarded_getters_unavailable board m :
  (hardware (self m) !! "PWR" = Some false ->
     unavailable_without_reads (battery_voltage board) m /\
     unavailable_without_reads (system_voltage board) m /\
     unavailable_without_reads (current_draw board) m) /\
  (hardware (self m) !! "SOLAR" = Some false ->
     unavailable_without_reads (charge_voltage board) m /\
     unavailable_without_reads (charge_current board) m) /\
  (hardware (self m) !! "COUPLE" = Some false ->
     unavailable_without_reads (battery_temperature board) m).
Proof.
  unfold unavailable_without_reads, battery_voltage, system_voltage, current_draw,
    charge_voltage, charge_current, battery_temperature.
  repeat split; py_eval; rewrite H; reflexivity.
Qed.

(** [internal_temperature] never reports "unavailable": it raises when
    [self.pct] is unbound and reads the sensor otherwise, whatever the
    capability table says. *)
Lemma internal_temperature_never_unavailable board m :
  ~ unavailable_without_reads (internal_temperature board) m.
Proof.
  unfold unavailable_without_reads, internal_temperature. py_eval.
  destruct (pct (self m)); py_eval; [on_board; py_eval |]; intros [H _]; discriminate H.
Qed.

(** C5 fails for [internal_temperature]: after a boot in which the
    temperature sensor did not come up, the getter raises
    [AttributeError] instead of reporting "unavailable", while
    [battery_temperature] on the same object with its entry cleared
    reports "unavailable". *)
Theorem internal_temperature_raises_when_absent :
  hardware booted_without_pct !! "TEMP" = Some false /\
  internal_temperature (steady 20) (fresh booted_without_pct)
    = (Raise (AttributeError "pct"), fresh booted_without_pct) /\
  ~ unavailable_without_reads (internal_temperature (steady 20)) (fresh booted_without_pct).
Proof.
  split; [vm_compute; reflexivity |].
  split; [reflexivity |].
  apply internal_temperature_never_unavailable.
Qed.

(** Successful reads in a row, summed into a local. *)
Lemma for_range_sums_reads board op (body : Q -> M Q Q) (vs : list Q) :
  (forall acc m, body acc m =
     match board (calls m) op with
     | Ok v => (Normal (acc + v)%Q, with_call op m)
     | Fault => (Raise (HardwareError op), with_call op m)
     end) ->
  forall m acc,
  (forall k v, vs !! k = Some v -> board (calls m ++ replicate k op) op = Ok v) ->
  for_range (length vs) body acc m
  = (Normal (fold_left Qplus vs acc),
     {| self := self m; calls := calls m ++ replicate (length vs) op;
        burnwire := burnwire m |}).
Proof.
  intros Hbody.
  induction vs as [| v vs IH]; intros m acc Hreads.
  - simpl. rewrite app_nil_r. destruct m; reflexivity.
  - cbn [length for_range bind]. rewrite Hbody.
    pose proof (Hreads 0%nat v eq_refl) as Hfirst.
    cbn [replicate] in Hfirst. rewrite app_nil_r in Hfirst. rewrite Hfirst.
    rewrite IH.
    + cbn [self calls burnwire with_call fold_left replicate].
      rewrite <- app_assoc. reflexivity.
    + intros k v' Hk. cbn [calls with_call]. rewrite <- app_assoc.
      apply (Hreads (S k)). exact Hk.
Qed.

Lemma fold_left_Qplus_Qsum (vs : list Q) : forall acc,
  (fold_left Qplus vs acc == acc + Qsum vs)%Q.
Proof.
  induction vs as [| v vs IH]; intros acc; simpl.
  - ring.
  - rewrite IH. unfold Qsum. ring.
Qed.

(** C9: with the power monitor present and fifty bus-voltage reads in a
    row answered, [battery_voltage] makes exactly those fifty reads and
    returns their mean plus 0.2. *)
Theorem battery_voltage_is_mean_plus_offset board m (vs : list Q) :
  hardware (self m) !! "PWR" = Some true ->
  length vs = 50%nat ->
  (forall k v, vs !! k = Some v ->
     board (calls m ++ replicate k (bus_voltage pwr)) (bus_voltage pwr) = Ok v) ->
  exists volts,
    fst (battery_voltage board m) = Return volts /\
    (volts == mean vs + 0.2)%Q /\
    calls (snd (battery_voltage board m)) = calls m ++ replicate 50 (bus_voltage pwr) /\
    self (snd (battery_voltage board m)) = self m.
Proof.
  intros Hpwr Hlen Hreads.
  exists (fold_left Qplus vs 0 / 50 + 0.2)%Q.
  pose proof (for_range_sums_reads board (bus_voltage pwr)
                (fun voltage =>
                   bind (hw_call board (bus_voltage pwr))
                        (fun v => ret (voltage + v)%Q)) vs) as Hloop.
  specialize (Hloop ltac:(intros acc m0; py_eval; on_board; reflexivity) m 0%Q Hreads).
  rewrite Hlen in Hloop.
  unfold battery_voltage.
  cbv beta delta [bind try_except hardware_get] in Hloop |- *.
  rewrite Hpwr, Hloop. cbn [fst snd calls self return_].
  repeat split; try reflexivity.
  unfold mean. rewrite Hlen, fold_left_Qplus_Qsum.
  change (inject_Z (Z.of_nat 50)) with 50%Q. field.
Qed.

Lemma battery_voltage_is_mean_plus_offset_witness :
  hardware (self (fresh booted)) !! "PWR" = Some true /\
  exists volts,
    fst (battery_voltage (steady 5) (fresh booted)) = Return volts /\
    (volts == 5.2)%Q /\
    calls (snd (battery_voltage (steady 5) (fresh booted)))
      = replicate 50 (bus_voltage pwr).
Proof.
  assert (Hpwr : hardware (self (fresh booted)) !! "PWR" = Some true)
    by (vm_compute; reflexivity).
  split; [exact Hpwr |].
  destruct (battery_voltage_is_mean_plus_offset (steady 5) (fresh booted)
              (replicate 50 5%Q) Hpwr eq_refl)
    as (volts & Hret & Hval & Hcalls & _).
  { intros k v Hk. apply lookup_replicate in Hk as [-> _]. reflexivity. }
  exists volts. split; [exact Hret |]. split; [| exact Hcalls].
  rewrite Hval. vm_compute. reflexivity.
Defined.

(** ** Burn wire: the duty conversion *)

Lemma py_int_floor (x : Q) : (0 <= x)%Q -> py_int x = Qfloor x.
Proof.
  destruct x as [n d]. unfold Qle, py_int, Qfloor. simpl. intros Hn.
  apply Z.quot_div_nonneg; lia.
Qed.

Lemma duty_product_range (duty_percent : Q) :
  (0 <= duty_percent)%Q -> (duty_percent <= 100)%Q ->
  (0 <= duty_percent / 100 * 65535)%Q /\ (duty_percent / 100 * 65535 <= 65535)%Q.
Proof.
  intros Hlo Hhi. split.
  - apply Qmult_le_0_compat; [| discriminate].
    apply Qle_shift_div_l; [reflexivity |]. rewrite Qmult_0_l. exact Hlo.
  - apply Qle_trans with (1 * 65535)%Q; [| unfold Qle; simpl; lia].
    apply Qmult_le_compat_r; [| discriminate].
    apply Qle_shift_div_r; [reflexivity |]. rewrite Qmult_1_l. exact Hhi.
Qed.

Lemma py_round_floor_or_next (x : Q) :
  py_round x = Qfloor x \/ py_round x = Qfloor x + 1.
Proof.
  unfold py_round.
  destruct (x - inject_Z (Qfloor x) ?= 1 # 2)%Q; [destruct (Z.even (Qfloor x)) | |]; auto.
Qed.

(** A run of [burn] on the wired channel in which no call raises. *)
Lemma burn_without_faults board burn_num dutycycle freq duration m (neo : bool) :
  py_in "1" burn_num = true ->
  (forall t op, board t op <> Fault) ->
  hardware (self m) !! "NEO" = Some neo ->
  let indicator c := if neo then [neopixel_set c] else [] in
  fst (burn board burn_num dutycycle freq duration m) = Return true /\
  calls (snd (burn board burn_num dutycycle freq duration m)) =
    calls m ++
      [PWMOut_new freq; relay_drive_mode PUSH_PULL; relay_value true] ++
      indicator orange ++
      [sleep 0.5; burnwire_duty (dtycycl_of dutycycle); sleep duration;
       relay_value false; burnwire_duty 0] ++
      indicator black ++
      [relay_drive_mode OPEN_DRAIN; relay_value false; burnwire_duty 0] ++
      indicator black ++
      [burnwire_deinit; relay_drive_mode OPEN_DRAIN].
Proof.
  intros Hin Hok Hneo. unfold burn, burn_body. py_eval. rewrite Hin.
  destruct neo;
    repeat first
      [ progress py_eval
      | rewrite Hneo
      | on_board; [| exfalso; eapply Hok; eassumption] ];
    (split; [reflexivity |]);
    repeat rewrite <- app_assoc; reflexivity.
Qed.

(** C8 as stated does not hold: at 50 percent the product is 32767.5;
    [burn] writes 32767 to the PWM output, while rounding gives 32768. *)
Lemma burn_duty_50_is_not_rounded :
  (0 <= 50)%Q /\ (50 <= 100)%Q /\
  applied_duty (issued (burn (steady 0) "1" 50 1000 1) (fresh booted)) = Some 32767 /\
  rounded_duty 50 = 32768 /\
  ~ applies_rounded_duty (steady 0) 50 (fresh booted).
Proof.
  split; [discriminate |]. split; [discriminate |].
  split; [vm_compute; reflexivity |]. split; [vm_compute; reflexivity |].
  unfold applies_rounded_duty. vm_compute. discriminate.
Qed.

(** C8, amended: for every duty percentage in [0, 100] the value [burn]
    writes to the PWM output is the product [duty_percent/100 * 0xFFFF]
    truncated to an integer, not rounded: it is the largest integer not
    above the product, it lies in [0, 0xFFFF], and it is the rounded value
    or one less. *)
Theorem burn_duty_is_truncated (duty_percent : Q) :
  (0 <= duty_percent)%Q -> (duty_percent <= 100)%Q ->
  let product := (duty_percent / 100 * 65535)%Q in
  (inject_Z (dtycycl_of duty_percent) <= product)%Q /\
  (product < inject_Z (dtycycl_of duty_percent + 1))%Q /\
  0 <= dtycycl_of duty_percent <= 65535 /\
  (rounded_duty duty_percent = dtycycl_of duty_percent \/
   rounded_duty duty_percent = dtycycl_of duty_percent + 1) /\
  forall board freq duration m,
    (forall t op, board t op <> Fault) ->
    is_Some (hardware (self m) !! "NEO") ->
    applied_duty (issued (burn board "1" duty_percent freq duration) m)
      = Some (dtycycl_of duty_percent).
Proof.
  intros Hlo Hhi product.
  destruct (duty_product_range duty_percent Hlo Hhi) as [Hp0 Hp1].
  fold product in Hp0, Hp1.
  assert (Hfloor : dtycycl_of duty_percent = Qfloor product)
    by (apply py_int_floor; exact Hp0).
  rewrite Hfloor.
  split; [apply Qfloor_le |]. split; [apply Qlt_floor |].
  split.
  { split.
    - change 0 with (Qfloor 0). apply Qfloor_resp_le. exact Hp0.
    - change 65535 with (Qfloor 65535). apply Qfloor_resp_le. exact Hp1. }
  split; [apply py_round_floor_or_next |].
  intros board freq duration m Hok [neo Hneo].
  destruct (burn_without_faults board "1" duty_percent freq duration m neo
              eq_refl Hok Hneo) as [_ Hcalls].
  unfold issued. rewrite Hcalls, drop_app_length, Hfloor.
  destruct neo; reflexivity.
Qed.

Lemma burn_duty_is_truncated_witness :
  (0 <= 50)%Q /\ (50 <= 100)%Q /\
  applied_duty (issued (burn (steady 0) "1" 50 1000 1) (fresh booted))
    = Some (dtycycl_of 50).
Proof.
  assert (Hlo : (0 <= 50)%Q) by discriminate.
  assert (Hhi : (50 <= 100)%Q) by discriminate.
  split; [exact Hlo |]. split; [exact Hhi |].
  apply (burn_duty_is_truncated 50 Hlo Hhi).
  - intros t op. discriminate.
  - exists true. vm_compute. reflexivity.
Defined.

(** ** Burn wire: exits *)

(** Once the PWM output has been allocated, and as long as the calls of
    the [finally] block themselves go through, [burn] returns a boolean
    and leaves the safe state behind, whichever call of the [try] body
    raised. *)
Lemma burn_cleanup_after_allocation board burn_num dutycycle freq duration m :
  py_in "1" burn_num = true ->
  board (calls m) (PWMOut_new freq) <> Fault ->
  hardware (self m) !! "NEO" = Some true ->
  (forall t, board t (relay_value false) <> Fault) ->
  (forall t, board t (burnwire_duty 0) <> Fault) ->
  (forall t, board t (neopixel_set black) <> Fault) ->
  (forall t, board t burnwire_deinit <> Fault) ->
  (forall t, board t (relay_drive_mode OPEN_DRAIN) <> Fault) ->
  (exists b, fst (burn board burn_num dutycycle freq duration m) = Return b) /\
  safe_after_burn (snd (burn board burn_num dutycycle freq duration m)).
Proof.
  intros Hin Halloc Hneo Hlow Hzero Hdark Hdeinit Hdrain.
  unfold safe_after_burn, burn, burn_body. py_eval. rewrite Hin.
  repeat first
    [ progress py_eval
    | rewrite Hneo
    | on_board; try board_cannot_fault ];
    (split; [eexists; reflexivity |]);
    repeat split; try reflexivity;
    eexists; repeat split; reflexivity.
Qed.

(** Without an allocated PWM output, because the channel was rejected or
    the allocation raised, [burn] never returns: its [finally] block
    raises. *)
Lemma burn_raises_without_pwm board burn_num dutycycle freq duration m :
  py_in "1" burn_num = false \/ board (calls m) (PWMOut_new freq) = Fault ->
  exists e, fst (burn board burn_num dutycycle freq duration m) = Raise e.
Proof.
  intros Hwhy. unfold burn, burn_body. py_eval.
  destruct (py_in "1" burn_num) eqn:Hin.
  - destruct Hwhy as [Hwhy | Hwhy]; [discriminate |].
    py_eval. rewrite Hwhy. py_run; eexists; reflexivity.
  - py_run; eexists; reflexivity.
Qed.

(** C1 fails when the PWM allocation raises: from the booted state
    (indicator blue), [burn] on the wired channel makes the allocation
    call and the relay-low write, then leaves by [UnboundLocalError];
    the indicator is still blue and no PWM output exists to have been
    released. *)
Theorem burn_allocation_fault_cuts_cleanup_short :
  py_in "1" "1" = true /\
  let after := burn (faulty is_PWMOut_new) "1" 50 1000 1 (fresh booted) in
  fst after = Raise (UnboundLocalError "burnwire") /\
  calls (snd after) = [PWMOut_new 1000; relay_value false] /\
  neopixel (self (snd after)) = (0, 0, 255) /\
  burnwire (snd after) = None /\
  ~ safe_after_burn (snd after).
Proof.
  split; [reflexivity |]. cbv zeta.
  split; [vm_compute; reflexivity |].
  split; [vm_compute; reflexivity |].
  split; [vm_compute; reflexivity |].
  split; [vm_compute; reflexivity |].
  intros (_ & (pw & Hpw & _) & _). vm_compute in Hpw. discriminate.
Qed.

(** C2 fails: [burn] lets an exception out, both for a channel id it
    does not support and when the PWM allocation raises. *)
Theorem burn_raises_past_its_boundary :
  fst (burn (steady 0) "2" 50 1000 1 (fresh booted))
    = Raise (UnboundLocalError "burnwire") /\
  fst (burn (faulty is_PWMOut_new) "1" 50 1000 1 (fresh booted))
    = Raise (UnboundLocalError "burnwire").
Proof. split; vm_compute; reflexivity. Qed.

(** C3 as stated does not hold: on channel id "2" the relay-low write of
    the [finally] block is made, and [False] is not what comes back. *)
Lemma burn_rejection_touches_relay :
  py_in "1" "2" = false /\
  issued (burn (steady 0) "2" 50 1000 1) (fresh booted) = [relay_value false] /\
  ~ rejected_untouched (steady 0) "2" 50 1000 1 (fresh booted).
Proof.
  split; [reflexivity |]. split; [vm_compute; reflexivity |].
  intros [_ Hnone]. vm_compute in Hnone. discriminate.
Qed.

(** C3, amended: on an unsupported channel id [burn] allocates no PWM
    output, never engages the relay, never lights the indicator and never
    writes a PWM duty.  The [finally] block still runs: the first call
    made is its relay-low write, and every call made only de-energises. *)
Theorem burn_rejection_only_releases board burn_num dutycycle freq duration m :
  py_in "1" burn_num = false ->
  head (issued (burn board burn_num dutycycle freq duration) m)
    = Some (relay_value false) /\
  Forall (fun op => is_release op = true)
    (issued (burn board burn_num dutycycle freq duration) m) /\
  burnwire (snd (burn board burn_num dutycycle freq duration m)) = None.
Proof.
  intros Hin. unfold issued, burn, burn_body. py_eval. rewrite Hin. py_eval.
  on_board; py_eval; rewrite drop_app_length;
    (split; [reflexivity |]); (split; [| reflexivity]);
    repeat constructor.
Qed.

Lemma burn_rejection_only_releases_witness :
  py_in "1" "2" = false /\
  head (issued (burn (steady 0) "2" 50 1000 1) (fresh booted))
    = Some (relay_value false).
Proof.
  assert (Hin : py_in "1" "2" = false) by reflexivity.
  split; [exact Hin |].
  exact (proj1 (burn_rejection_only_releases (steady 0) "2" 50 1000 1 (fresh booted) Hin)).
Defined.

(** * Further properties of the driver *)

(** ** The indicator setter *)

(** X1: the [RGB] setter never raises.  With the NeoPixel absent it makes
    no call; with it present it makes the one pixel write, and a fault of
    that write is swallowed, leaving the colour as it was.  Nothing but
    the indicator is ever changed. *)
Theorem set_RGB_never_raises board c m (neo : bool) :
  hardware (self m) !! "NEO" = Some neo ->
  fst (set_RGB board (R := unit) c m) = Normal tt /\
  snd (set_RGB board (R := unit) c m) =
    (if neo then
       match board (calls m) (neopixel_set c) with
       | Ok _ => with_self (with_neopixel c) (with_call (neopixel_set c) m)
       | Fault => with_call (neopixel_set c) m
       end
     else m).
Proof.
  intros Hneo. py_eval. rewrite Hneo.
  destruct neo; py_eval; [on_board; py_eval |]; split; reflexivity.
Qed.

Lemma set_RGB_never_raises_witness :
  hardware (self (fresh booted)) !! "NEO" = Some true /\
  fst (set_RGB (faulty (fun _ => true)) (R := unit) orange (fresh booted)) = Normal tt /\
  neopixel (self (snd (set_RGB (faulty (fun _ => true)) (R := unit) orange (fresh booted))))
    = (0, 0, 255).
Proof.
  assert (Hneo : hardware (self (fresh booted)) !! "NEO" = Some true)
    by (vm_compute; reflexivity).
  split; [exact Hneo |].
  destruct (set_RGB_never_raises (faulty (fun _ => true)) orange _ _ Hneo) as [Hfst Hsnd].
  split; [exact Hfst |]. rewrite Hsnd. reflexivity.
Defined.

(** ** Arming *)

Lemma counter_get_flag_set c f v store :
  mbf_register c ≠ bf_register f ->
  multiBitFlag_get c (bitFlag_set f v store) = multiBitFlag_get c store.
Proof.
  intros Hne. unfold multiBitFlag_get, bitFlag_set.
  rewrite nvm_byte_insert_ne by congruence. reflexivity.
Qed.

Lemma counter_get_counter_set c c' v store :
  mbf_register c ≠ mbf_register c' ->
  multiBitFlag_get c (multiBitFlag_set c' v store) = multiBitFlag_get c store.
Proof.
  intros Hne. unfold multiBitFlag_get, multiBitFlag_set.
  rewrite nvm_byte_insert_ne by congruence. reflexivity.
Qed.

(** X2: [arm_satellite] and [disarm_satellite] always complete, make no
    peripheral call, and write only the arming state: the six other
    flags of the flag byte, the four other counters and everything
    outside the registers are as before; whichever was called last
    decides [burnarm], [burned] (always opposite) and [dist] (always 0). *)
Theorem arming_writes_only_arming_state m :
  let other_registers s :=
    (bitFlag_get f_softboot (nvm s), bitFlag_get f_solar (nvm s),
     bitFlag_get f_brownout (nvm s), bitFlag_get f_triedburn (nvm s),
     bitFlag_get f_shtdwn (nvm s), bitFlag_get f_fsk (nvm s),
     multiBitFlag_get c_boot (nvm s), multiBitFlag_get c_vbusrst (nvm s),
     multiBitFlag_get c_state_err (nvm s), multiBitFlag_get c_ichrg (nvm s)) in
  let rest s := (hardware s, heating s, _relayA s, neopixel s, channels s, pct s) in
  let armed := snd (arm_satellite m) in
  let disarmed := snd (disarm_satellite m) in
  fst (arm_satellite m) = Normal tt /\
  fst (disarm_satellite m) = Normal tt /\
  calls armed = calls m /\ calls disarmed = calls m /\
  (burnarm (self armed), burned (self armed), dist (self armed)) = (true, false, 0) /\
  (burnarm (self disarmed), burned (self disarmed), dist (self disarmed))
    = (false, true, 0) /\
  other_registers (self armed) = other_registers (self m) /\
  other_registers (self disarmed) = other_registers (self m) /\
  rest (self armed) = rest (self m) /\
  rest (self disarmed) = rest (self m).
Proof.
  cbv zeta. rewrite arm_satellite_nvm, disarm_satellite_nvm.
  unfold burnarm, burned, dist, with_nvm, nvm, hardware, heating, _relayA,
    neopixel, channels, pct.
  repeat first
    [ rewrite bitFlag_get_counter_set by (cbv; lia)
    | rewrite counter_get_counter_set by (cbv; lia)
    | rewrite counter_get_flag_set by (cbv; lia)
    | rewrite bitFlag_get_set_eq by (cbv; discriminate)
    | rewrite multiBitFlag_get_set_zero by (cbv; discriminate)
    | rewrite bitFlag_get_set_ne
        by (cbv; first [discriminate | right; discriminate]) ].
  repeat split; reflexivity.
Qed.

(** ** Methods gated on the LED driver *)

(** X3: with the LED driver absent, [all_faces_on], [all_faces_off],
    [heater_on] and [heater_off] complete without a single peripheral
    call and leave the object exactly as it was. *)
Theorem led_driver_absent_nothing_happens board m :
  hardware (self m) !! "FLD" = Some false ->
  all_faces_on board m = (Normal tt, m) /\
  all_faces_off board m = (Normal tt, m) /\
  heater_on board m = (Normal tt, m) /\
  heater_off board m = (Normal tt, m).
Proof.
  intros Hfld. unfold all_faces_on, all_faces_off, heater_on, heater_off.
  py_eval. rewrite Hfld. repeat split; reflexivity.
Qed.

Lemma led_driver_absent_nothing_happens_witness :
  let m := fresh (with_hardware (<["FLD" := false]> all_present) booted) in
  hardware (self m) !! "FLD" = Some false /\
  heater_on (steady 0) m = (Normal tt, m).
Proof.
  cbv zeta.
  assert (Hfld : hardware (self (fresh (with_hardware (<["FLD" := false]> all_present)
                                         booted))) !! "FLD" = Some false)
    by (vm_compute; reflexivity).
  split; [exact Hfld |].
  exact (proj1 (proj2 (proj2 (led_driver_absent_nothing_happens (steady 0) _ Hfld)))).
Defined.

(** ** Face power sequencing *)



(** X5: whatever the board does, the calls [all_faces_off] makes are an
    initial part of "power face 0 down, settle, ..., power face 4 down,
    settle": no face is powered down before the settle delay of the face
    before it has passed.  When the run completes, all five faces are at
    zero duty and recorded off. *)
Theorem all_faces_off_settles_between_faces board m :
  hardware (self m) !! "FLD" = Some true ->
  let m' := snd (all_faces_off board m) in
  issued (all_faces_off board) m `prefix_of` faces_off_calls /\
  (fst (all_faces_off board m) = Normal tt ->
   issued (all_faces_off board) m = faces_off_calls /\
   Forall (fun n => channels (self m') !! Face n = Some 0) [0; 1; 2; 3; 4]%nat /\
   Forall (fun key => hardware (self m') !! key = Some false)
     ["Face0"; "Face1"; "Face2"; "Face3"; "Face4"]%string).
Proof.
  intros Hfld. cbv zeta. unfold issued, all_faces_off. py_eval. rewrite Hfld.
  py_eval. repeat (on_board; py_eval);
    repeat rewrite <- app_assoc; rewrite ?drop_app_length; cbn [app];
    (split; [eexists; reflexivity |]);
    intros Hdone; try discriminate Hdone.
  split; [reflexivity |].
  split; repeat constructor;
    repeat first [ rewrite lookup_insert_eq; reflexivity
                 | rewrite lookup_insert_ne by discriminate ].
Qed.

Lemma all_faces_off_settles_between_faces_witness :
  hardware (self (fresh booted)) !! "FLD" = Some true /\
  issued (all_faces_off (steady 0)) (fresh booted) = faces_off_calls.
Proof.
  assert (Hfld : hardware (self (fresh booted)) !! "FLD" = Some true)
    by (vm_compute; reflexivity).
  split; [exact Hfld |].
  apply (all_faces_off_settles_between_faces (steady 0) _ Hfld).
  vm_compute. reflexivity.
Defined.

(** ** Heater *)

Lemma drop_length_app_app {A} (l k k2 : list A) :
  drop (length (l ++ k)) (l ++ k2) = drop (length k) k2.
Proof. induction l as [| x l IH]; simpl; [reflexivity | exact IH]. Qed.



(** X7: when [heater_on] finds the guard clear and its first call (the
    push-pull switch) goes through, it marks the heater active before it
    engages anything: [f_brownout] and [heating] end set whatever raises
    afterwards, so a [heater_on] that failed half-way still blocks the
    next [heater_on] until [heater_off] has run. *)
Theorem heater_on_marks_before_engaging board m v :
  hardware (self m) !! "FLD" = Some true ->
  bitFlag_get f_brownout (nvm (self m)) = false ->
  board (calls m) (relay_drive_mode PUSH_PULL) = Ok v ->
  let s' := self (snd (heater_on board m)) in
  bitFlag_get f_brownout (nvm s') = true /\
  heating s' = true /\
  drive_mode (_relayA s') = PUSH_PULL.
Proof.
  intros Hfld Hguard Hswitch. cbv zeta.
  unfold heater_on. py_eval. rewrite Hfld. py_eval. rewrite Hswitch. py_eval.
  rewrite Hguard.
  py_run; rewrite bitFlag_get_set_eq by (cbv; discriminate);
    repeat split; reflexivity.
Qed.

Lemma heater_on_marks_before_engaging_witness :
  let board := faulty (fun op => match op with relay_value _ => true | _ => false end) in
  hardware (self (fresh booted)) !! "FLD" = Some true /\
  bitFlag_get f_brownout (nvm (self (fresh booted))) = false /\
  heating (self (snd (heater_on board (fresh booted)))) = true /\
  channels (self (snd (heater_on board (fresh booted)))) !! heater = Some 0.
Proof.
  cbv zeta.
  assert (Hfld : hardware (self (fresh booted)) !! "FLD" = Some true)
    by (vm_compute; reflexivity).
  assert (Hguard : bitFlag_get f_brownout (nvm (self (fresh booted))) = false)
    by (vm_compute; reflexivity).
  split; [exact Hfld |]. split; [exact Hguard |].
  split.
  - exact (proj1 (proj2 (heater_on_marks_before_engaging _ _ 0%Q Hfld Hguard eq_refl))).
  - vm_compute. reflexivity.
Defined.

(** X8: a [heater_on] that engages without a fault drives the relay
    push-pull and high, lights the indicator when there is one, waits the
    settle time and only then applies the duty 0x7FFF, in that order;
    a following [heater_off] without a fault zeroes the duty first, drops
    the relay, returns it to open-drain, and clears [heating],
    [f_brownout] and the indicator. *)
Theorem heater_on_then_off board m (neo : bool) :
  hardware (self m) !! "FLD" = Some true ->
  hardware (self m) !! "NEO" = Some neo ->
  bitFlag_get f_brownout (nvm (self m)) = false ->
  (forall t op, board t op <> Fault) ->
  let on := snd (heater_on board m) in
  let off := snd (heater_off board on) in
  issued (heater_on board) m = heater_on_calls neo /\
  heating (self on) = true /\
  bitFlag_get f_brownout (nvm (self on)) = true /\
  _relayA (self on) = {| drive_mode := PUSH_PULL; value := true |} /\
  channels (self on) !! heater = Some 32767 /\
  issued (heater_off board) on
    = heater_off_calls ++ (if neo then [neopixel_set black] else []) /\
  heating (self off) = false /\
  bitFlag_get f_brownout (nvm (self off)) = false /\
  _relayA (self off) = {| drive_mode := OPEN_DRAIN; value := false |} /\
  channels (self off) !! heater = Some 0 /\
  neopixel (self off) = (if neo then black else neopixel (self m)) /\
  hardware (self off) = hardware (self m).
Proof.
  intros Hfld Hneo Hguard Hok. cbv zeta.
  unfold issued, heater_on, heater_off. py_eval. rewrite Hfld. py_eval.
  on_board; [| exfalso; eapply Hok; eassumption]. py_eval. rewrite Hguard.
  destruct neo;
    repeat first
      [ progress py_eval
      | rewrite Hneo
      | rewrite Hfld
      | on_board; [| exfalso; eapply Hok; eassumption] ];
    repeat rewrite <- app_assoc; cbn [app];
    rewrite ?drop_app_length, ?drop_length_app_app; cbn [app length drop];
    rewrite ?bitFlag_get_set_eq by (cbv; discriminate);
    repeat split; try reflexivity;
    rewrite ?lookup_insert_eq; reflexivity.
Qed.

Lemma heater_on_then_off_witness :
  hardware (self (fresh booted)) !! "FLD" = Some true /\
  bitFlag_get f_brownout (nvm (self (fresh booted))) = false /\
  issued (heater_on (steady 0)) (fresh booted) = heater_on_calls true.
Proof.
  assert (Hfld : hardware (self (fresh booted)) !! "FLD" = Some true)
    by (vm_compute; reflexivity).
  assert (Hneo : hardware (self (fresh booted)) !! "NEO" = Some true)
    by (vm_compute; reflexivity).
  assert (Hguard : bitFlag_get f_brownout (nvm (self (fresh booted))) = false)
    by (vm_compute; reflexivity).
  split; [exact Hfld |]. split; [exact Hguard |].
  apply (heater_on_then_off (steady 0) _ true Hfld Hneo Hguard).
  intros t op. discriminate.
Defined.

(** One heater call from the locked-out state: still locked out, and
    the heater duty 0x7FFF is not among the calls made. *)
Lemma heater_locked_out_step board c m :
  heater_locked_out (self m) ->
  heater_locked_out (self (exec_heater board c m)) /\
  exists new, calls (exec_heater board c m) = calls m ++ new /\
              Forall (fun op => op <> channel_duty heater 32767) new.
Proof.
  unfold heater_locked_out. intros [Hheat Hguard].
  destruct c; unfold exec_heater.
  - unfold heater_on. py_eval. on_table; py_eval.
    + on_board; py_eval.
      * rewrite Hguard. py_eval. split; [split; congruence |].
        eexists. split; [reflexivity |]. repeat constructor; discriminate.
      * on_board; py_eval; (split; [split; congruence |]);
          rewrite <- app_assoc; eexists; (split; [reflexivity |]);
          repeat constructor; discriminate.
    + split; [split; congruence |]. exists []. rewrite app_nil_r.
      split; [reflexivity | constructor].
    + split; [split; congruence |]. exists []. rewrite app_nil_r.
      split; [reflexivity | constructor].
  - unfold heater_off. py_eval. on_table; py_eval.
    + repeat (on_board; py_eval); rewrite ?Hheat; py_eval;
        (split; [split; congruence |]);
        repeat rewrite <- app_assoc; eexists; (split; [reflexivity |]);
        repeat constructor; discriminate.
    + split; [split; congruence |]. exists []. rewrite app_nil_r.
      split; [reflexivity | constructor].
    + split; [split; congruence |]. exists []. rewrite app_nil_r.
      split; [reflexivity | constructor].
Qed.

(** X9: once [f_brownout] is set while [heating] is not (a reboot in the
    middle of a heating phase leaves exactly that), no sequence of
    [heater_on] and [heater_off] calls gets out of it: [heater_on] is held
    back by the guard, [heater_off] clears the guard only when [heating]
    is set.  In every state reached the two flags are as they were and
    the heater duty 0x7FFF has never been applied. *)
Theorem heater_stays_locked_out board cs m :
  heater_locked_out (self m) ->
  Forall (fun m' =>
            heater_locked_out (self m') /\
            exists new, calls m' = calls m ++ new /\
                        Forall (fun op => op <> channel_duty heater 32767) new)
         (reached_heater board cs m).
Proof.
  revert m. induction cs as [| c cs IH]; intros m Hlocked; simpl.
  - constructor.
  - destruct (heater_locked_out_step board c m Hlocked) as (Hnext & new & Hcalls & Hnew).
    constructor.
    + split; [exact Hnext |]. exists new. split; assumption.
    + eapply Forall_impl; [apply IH; exact Hnext |].
      intros m' (Hm' & new' & Hcalls' & Hnew'). split; [exact Hm' |].
      exists (new ++ new'). split.
      * rewrite Hcalls', Hcalls, app_assoc. reflexivity.
      * apply Forall_app. split; assumption.
Qed.

Lemma heater_stays_locked_out_witness :
  heater_locked_out (self (fresh rebooted_in_brownout)) /\
  Forall (fun m' => heater_locked_out (self m'))
    (reached_heater (steady 0) [HeaterOn; HeaterOff; HeaterOn]
       (fresh rebooted_in_brownout)).
Proof.
  assert (Hlocked : heater_locked_out (self (fresh rebooted_in_brownout)))
    by (split; vm_compute; reflexivity).
  split; [exact Hlocked |].
  eapply Forall_impl; [exact (heater_stays_locked_out (steady 0) _ _ Hlocked) |].
  intros m' [Hm' _]. exact Hm'.
Defined.

(** ** State-of-health getters *)




(** The calls of [k] rounds of "bus voltage, then shunt voltage". *)
Lemma for_range_sums_pairs board dev (body : Q -> M Q Q) (vs : list (Q * Q)) :
  let round := [bus_voltage dev; shunt_voltage dev] in
  (forall acc m, body acc m =
     match board (calls m) (bus_voltage dev) with
     | Ok b =>
         match board (calls m ++ [bus_voltage dev]) (shunt_voltage dev) with
         | Ok s => (Normal (acc + (b + s))%Q,
                    with_call (shunt_voltage dev) (with_call (bus_voltage dev) m))
         | Fault => (Raise (HardwareError (shunt_voltage dev)),
                     with_call (shunt_voltage dev) (with_call (bus_voltage dev) m))
         end
     | Fault => (Raise (HardwareError (bus_voltage dev)), with_call (bus_voltage dev) m)
     end) ->
  forall m acc,
  (forall k b s, vs !! k = Some (b, s) ->
     board (calls m ++ mjoin (replicate k round)) (bus_voltage dev) = Ok b /\
     board (calls m ++ mjoin (replicate k round) ++ [bus_voltage dev]) (shunt_voltage dev)
       = Ok s) ->
  for_range (length vs) body acc m
  = (Normal (fold_left (fun a p => a + (fst p + snd p))%Q vs acc),
     {| self := self m; calls := calls m ++ mjoin (replicate (length vs) round);
        burnwire := burnwire m |}).
Proof.
  intros round Hbody.
  induction vs as [| [b s] vs IH]; intros m acc Hreads.
  - simpl. rewrite app_nil_r. destruct m; reflexivity.
  - cbn [length for_range bind]. rewrite Hbody.
    destruct (Hreads 0%nat b s eq_refl) as [Hb Hs].
    cbn [replicate mjoin list_join app] in Hb, Hs. rewrite app_nil_r in Hb.
    rewrite Hb, Hs. rewrite IH.
    + cbn [self calls burnwire with_call fold_left replicate fst snd].
      f_equal. f_equal. rewrite <- !app_assoc. reflexivity.
    + intros k b' s' Hk. cbn [calls with_call]. rewrite <- !app_assoc.
      apply (Hreads (S k) b' s' Hk).
Qed.

Lemma fold_left_pairs_Qsum (vs : list (Q * Q)) : forall acc,
  (fold_left (fun a p => a + (fst p + snd p)) vs acc
   == acc + Qsum (map (fun p => fst p + snd p) vs))%Q.
Proof.
  induction vs as [| p vs IH]; intros acc; simpl.
  - ring.
  - rewrite IH. unfold Qsum. ring.
Qed.

(** X11: with the power monitor present and fifty rounds of "bus
    voltage, then shunt voltage" answered, [system_voltage] makes exactly
    those hundred reads, bus before shunt in every round, and returns the
    mean of the fifty sums, with no offset added. *)
Theorem system_voltage_is_mean_of_sums board m (vs : list (Q * Q)) :
  let round := [bus_voltage pwr; shunt_voltage pwr] in
  hardware (self m) !! "PWR" = Some true ->
  length vs = 50%nat ->
  (forall k b s, vs !! k = Some (b, s) ->
     board (calls m ++ mjoin (replicate k round)) (bus_voltage pwr) = Ok b /\
     board (calls m ++ mjoin (replicate k round) ++ [bus_voltage pwr]) (shunt_voltage pwr)
       = Ok s) ->
  exists volts,
    fst (system_voltage board m) = Return volts /\
    (volts == mean (map (fun p => fst p + snd p) vs))%Q /\
    calls (snd (system_voltage board m)) = calls m ++ mjoin (replicate 50 round).
Proof.
  intros round Hpwr Hlen Hreads.
  exists (fold_left (fun a p => a + (fst p + snd p)) vs 0 / 50)%Q.
  pose proof (for_range_sums_pairs board pwr
                (fun voltage =>
                   bind (hw_call board (bus_voltage pwr)) (fun b =>
                   bind (hw_call board (shunt_voltage pwr)) (fun s =>
                   ret (voltage + (b + s))%Q))) vs) as Hloop.
  specialize (Hloop ltac:(intros acc m0; py_eval; repeat (on_board; py_eval); reflexivity)
                    m 0%Q Hreads).
  rewrite Hlen in Hloop.
  unfold system_voltage.
  cbv beta delta [bind try_except hardware_get] in Hloop |- *.
  rewrite Hpwr, Hloop. cbn [fst snd calls self return_].
  repeat split; try reflexivity.
  unfold mean. rewrite length_map, Hlen, fold_left_pairs_Qsum.
  change (inject_Z (Z.of_nat 50)) with 50%Q. field.
Qed.

Lemma system_voltage_is_mean_of_sums_witness :
  let board : Board :=
    fun _ op => match op with shunt_voltage _ => Ok 0.1%Q | _ => Ok 7%Q end in
  hardware (self (fresh booted)) !! "PWR" = Some true /\
  exists volts,
    fst (system_voltage board (fresh booted)) = Return volts /\ (volts == 7.1)%Q.
Proof.
  cbv zeta.
  assert (Hpwr : hardware (self (fresh booted)) !! "PWR" = Some true)
    by (vm_compute; reflexivity).
  split; [exact Hpwr |].
  destruct (system_voltage_is_mean_of_sums
              (fun _ op => match op with shunt_voltage _ => Ok 0.1%Q | _ => Ok 7%Q end)
              (fresh booted) (replicate 50 (7%Q, 0.1%Q)) Hpwr eq_refl)
    as (volts & Hret & Hval & _).
  { intros k b s Hk. apply lookup_replicate in Hk as [Heq _].
    injection Heq as -> ->. split; reflexivity. }
  exists volts. split; [exact Hret |].
  rewrite Hval. vm_compute. reflexivity.
Defined.

(** Runs an averaging getter whose fifty reads of [op] are answered by
    [vs]. *)
Ltac averaging_run board op vs m Hkey Hlen Hreads :=
  let Hloop := fresh "Hloop" in
  pose proof (for_range_sums_reads board op
                (fun acc => bind (hw_call board op) (fun v => ret (acc + v)%Q)) vs) as Hloop;
  specialize (Hloop ltac:(intros acc m0; py_eval; on_board; reflexivity) m 0%Q Hreads);
  rewrite Hlen in Hloop;
  cbv beta delta [bind try_except hardware_get] in Hloop |- *;
  rewrite Hkey, Hloop; cbn [fst snd calls self return_].

(** X12: with the power monitor present and fifty current reads in a
    row answered, [current_draw] makes exactly those fifty reads and
    returns their plain mean; unlike the bus-voltage getters it adds no
    correction. *)
Theorem current_draw_is_mean board m (vs : list Q) :
  hardware (self m) !! "PWR" = Some true ->
  length vs = 50%nat ->
  (forall k v, vs !! k = Some v ->
     board (calls m ++ replicate k (current pwr)) (current pwr) = Ok v) ->
  exists amps,
    fst (current_draw board m) = Return amps /\
    (amps == mean vs)%Q /\
    calls (snd (current_draw board m)) = calls m ++ replicate 50 (current pwr).
Proof.
  intros Hpwr Hlen Hreads.
  exists (fold_left Qplus vs 0 / 50)%Q.
  unfold current_draw. averaging_run board (current pwr) vs m Hpwr Hlen Hreads.
  repeat split; try reflexivity.
  unfold mean. rewrite Hlen, fold_left_Qplus_Qsum.
  change (inject_Z (Z.of_nat 50)) with 50%Q. field.
Qed.

Lemma current_draw_is_mean_witness :
  hardware (self (fresh booted)) !! "PWR" = Some true /\
  exists amps,
    fst (current_draw (steady 120) (fresh booted)) = Return amps /\ (amps == 120)%Q.
Proof.
  assert (Hpwr : hardware (self (fresh booted)) !! "PWR" = Some true)
    by (vm_compute; reflexivity).
  split; [exact Hpwr |].
  destruct (current_draw_is_mean (steady 120) (fresh booted)
              (replicate 50 120%Q) Hpwr eq_refl)
    as (amps & Hret & Hval & _).
  { intros k v Hk. apply lookup_replicate in Hk as [-> _]. reflexivity. }
  exists amps. split; [exact Hret |].
  rewrite Hval. vm_compute. reflexivity.
Defined.

(** X13: the two solar getters read the solar monitor only.  With it
    present and fifty reads in a row answered, [charge_voltage] returns
    the mean of fifty bus-voltage reads plus 0.2 and [charge_current] the
    plain mean of fifty current reads. *)
Theorem solar_getters_average board m (vs cs : list Q) :
  hardware (self m) !! "SOLAR" = Some true ->
  length vs = 50%nat -> length cs = 50%nat ->
  (forall k v, vs !! k = Some v ->
     board (calls m ++ replicate k (bus_voltage solar)) (bus_voltage solar) = Ok v) ->
  (forall k c, cs !! k = Some c ->
     board (calls m ++ replicate k (current solar)) (current solar) = Ok c) ->
  (exists volts,
     fst (charge_voltage board m) = Return volts /\
     (volts == mean vs + 0.2)%Q /\
     calls (snd (charge_voltage board m)) = calls m ++ replicate 50 (bus_voltage solar)) /\
  (exists amps,
     fst (charge_current board m) = Return amps /\
     (amps == mean cs)%Q /\
     calls (snd (charge_current board m)) = calls m ++ replicate 50 (current solar)).
Proof.
  intros Hsolar Hlenv Hlenc Hvolts Hamps. split.
  - exists (fold_left Qplus vs 0 / 50 + 0.2)%Q.
    unfold charge_voltage.
    averaging_run board (bus_voltage solar) vs m Hsolar Hlenv Hvolts.
    repeat split; try reflexivity.
    unfold mean. rewrite Hlenv, fold_left_Qplus_Qsum.
    change (inject_Z (Z.of_nat 50)) with 50%Q. field.
  - exists (fold_left Qplus cs 0 / 50)%Q.
    unfold charge_current.
    averaging_run board (current solar) cs m Hsolar Hlenc Hamps.
    repeat split; try reflexivity.
    unfold mean. rewrite Hlenc, fold_left_Qplus_Qsum.
    change (inject_Z (Z.of_nat 50)) with 50%Q. field.
Qed.

Lemma solar_getters_average_witness :
  hardware (self (fresh booted)) !! "SOLAR" = Some true /\
  exists volts,
    fst (charge_voltage (steady 4) (fresh booted)) = Return volts /\ (volts == 4.2)%Q.
Proof.
  assert (Hsolar : hardware (self (fresh booted)) !! "SOLAR" = Some true)
    by (vm_compute; reflexivity).
  split; [exact Hsolar |].
  destruct (solar_getters_average (steady 4) (fresh booted)
              (replicate 50 4%Q) (replicate 50 4%Q) Hsolar eq_refl eq_refl)
    as ((volts & Hret & Hval & _) & _).
  { intros k v Hk. apply lookup_replicate in Hk as [-> _]. reflexivity. }
  { intros k v Hk. apply lookup_replicate in Hk as [-> _]. reflexivity. }
  exists volts. split; [exact Hret |].
  rewrite Hval. vm_compute. reflexivity.
Defined.

(** X14: [battery_temperature] makes one thermocouple read and does not
    guard it: with the thermocouple present a read that raises leaves the
    getter as an exception, and a read of [v] volts is returned as
    [(v - 1.25) / 0.005], that is [200 v - 250]: 1.25 V reads as 0 and
    every further 5 mV as one unit more. *)
Theorem battery_temperature_is_linear_and_unguarded board m :
  hardware (self m) !! "COUPLE" = Some true ->
  calls (snd (battery_temperature board m)) = calls m ++ [thermocouple_voltage] /\
  self (snd (battery_temperature board m)) = self m /\
  match board (calls m) thermocouple_voltage with
  | Ok v =>
      exists tip, fst (battery_temperature board m) = Return tip /\
                  (tip == 200 * v - 250)%Q
  | Fault =>
      fst (battery_temperature board m) = Raise (HardwareError thermocouple_voltage)
  end.
Proof.
  intros Hcouple. unfold battery_temperature. py_eval. rewrite Hcouple. py_eval.
  destruct (board (calls m) thermocouple_voltage) as [v |]; py_eval;
    repeat split; try reflexivity.
  eexists. split; [reflexivity |]. field.
Qed.

Lemma battery_temperature_is_linear_and_unguarded_witness :
  hardware (self (fresh booted)) !! "COUPLE" = Some true /\
  fst (battery_temperature (faulty (fun _ => true)) (fresh booted))
    = Raise (HardwareError thermocouple_voltage).
Proof.
  assert (Hcouple : hardware (self (fresh booted)) !! "COUPLE" = Some true)
    by (vm_compute; reflexivity).
  split; [exact Hcouple |].
  exact (proj2 (proj2 (battery_temperature_is_linear_and_unguarded
                         (faulty (fun _ => true)) _ Hcouple))).
Defined.

(** ** Burn wire *)

(** X15: [burn] neither consults nor writes the persistent registers.
    Run from two states that differ only in the register contents, it
    makes the same calls and ends the same way, so it fires just the same
    with [burnarm] clear; and it leaves every flag and counter, [burned]
    and [f_triedburn] included, as it found them. *)
Theorem burn_ignores_registers board burn_num dutycycle freq duration m store :
  burn board burn_num dutycycle freq duration (with_self (with_nvm store) m)
  = (fst (burn board burn_num dutycycle freq duration m),
     with_self (with_nvm store) (snd (burn board burn_num dutycycle freq duration m))) /\
  nvm (self (snd (burn board burn_num dutycycle freq duration m))) = nvm (self m).
Proof.
  split; [| apply burn_keeps_nvm].
  unfold burn, burn_body. py_eval.
  destruct (py_in "1" burn_num); py_run; reflexivity.
Qed.

(** X16: [burn] returns [True] only after a complete run.  Whatever the
    board does, if [True] comes back then the PWM output was allocated,
    the relay engaged, the settle time waited, the duty applied and held
    for [duration], and both clean-ups ran; the relay is low and back in
    open-drain and the PWM output is at duty 0 and released. *)
Theorem burn_true_means_complete board burn_num dutycycle freq duration m (neo : bool) :
  hardware (self m) !! "NEO" = Some neo ->
  fst (burn board burn_num dutycycle freq duration m) = Return true ->
  let m' := snd (burn board burn_num dutycycle freq duration m) in
  py_in "1" burn_num = true /\
  issued (burn board burn_num dutycycle freq duration) m
    = burn_calls neo dutycycle freq duration /\
  _relayA (self m') = {| drive_mode := OPEN_DRAIN; value := false |} /\
  burnwire m' = Some {| frequency := freq; duty_cycle := 0; deinited := true |}.
Proof.
  intros Hneo. cbv zeta. unfold issued, burn, burn_body, burn_calls. py_eval.
  destruct (py_in "1" burn_num); destruct neo;
    repeat first
      [ progress py_eval
      | rewrite Hneo
      | on_board ];
    intros Hdone; try discriminate Hdone;
    repeat rewrite <- app_assoc; rewrite ?drop_app_length;
    repeat split; reflexivity.
Qed.

Lemma burn_true_means_complete_witness :
  hardware (self (fresh booted)) !! "NEO" = Some true /\
  fst (burn (steady 0) "1" 50 1000 1 (fresh booted)) = Return true /\
  issued (burn (steady 0) "1" 50 1000 1) (fresh booted) = burn_calls true 50 1000 1.
Proof.
  assert (Hneo : hardware (self (fresh booted)) !! "NEO" = Some true)
    by (vm_compute; reflexivity).
  assert (Hdone : fst (burn (steady 0) "1" 50 1000 1 (fresh booted)) = Return true)
    by (vm_compute; reflexivity).
  split; [exact Hneo |]. split; [exact Hdone |].
  exact (proj1 (proj2 (burn_true_means_complete _ _ _ _ _ _ _ Hneo Hdone))).
Defined.





(** ** Boot *)

(** X19: the two register corrections of [__init__] make no peripheral
    call and always complete.  Afterwards the boot counter is at most
    200 (it is reset to 0 when it was above 200 and kept otherwise) and
    [f_softboot] is clear; the seven other flags and the four other
    counters are as before. *)
Theorem boot_corrections_bound_counter m :
  let before := nvm (self m) in
  let after := nvm (self (snd (boot_corrections m))) in
  let others store :=
    (bitFlag_get f_solar store, bitFlag_get f_burnarm store,
     bitFlag_get f_brownout store, bitFlag_get f_triedburn store,
     bitFlag_get f_shtdwn store, bitFlag_get f_burned store,
     bitFlag_get f_fsk store,
     multiBitFlag_get c_vbusrst store, multiBitFlag_get c_state_err store,
     multiBitFlag_get c_distance store, multiBitFlag_get c_ichrg store) in
  fst (boot_corrections m) = Normal tt /\
  calls (snd (boot_corrections m)) = calls m /\
  multiBitFlag_get c_boot after
    = (if multiBitFlag_get c_boot before >? 200 then 0
       else multiBitFlag_get c_boot before) /\
  multiBitFlag_get c_boot after <= 200 /\
  bitFlag_get f_softboot after = false /\
  others after = others before.
Proof.
  cbv zeta. unfold boot_corrections. py_eval.
  destruct (multiBitFlag_get c_boot (nvm (self m)) >? 200) eqn:Hboots;
    py_eval;
    destruct (bitFlag_get f_softboot _) eqn:Hsoft; py_eval;
    rewrite ?bitFlag_get_counter_set in Hsoft by (cbv; lia);
    repeat first
      [ rewrite bitFlag_get_counter_set by (cbv; lia)
      | rewrite counter_get_counter_set by (cbv; lia)
      | rewrite counter_get_flag_set by (cbv; lia)
      | rewrite bitFlag_get_set_eq by (cbv; discriminate)
      | rewrite multiBitFlag_get_set_zero by (cbv; discriminate)
      | rewrite bitFlag_get_set_ne
          by (cbv; first [discriminate | right; discriminate]) ];
    rewrite ?Hsoft;
    repeat split; try reflexivity; try lia.
Qed.

(** ** Burn wire: the [finally] block *)



(** X21: a getter whose monitor is marked absent does nothing at all:
    with the entry false, [battery_voltage], [system_voltage] and
    [current_draw] (entry PWR), [charge_voltage] and [charge_current]
    (entry SOLAR) and [battery_temperature] (entry COUPLE) fall through
    to [None] and leave the whole state, the record of calls included,
    exactly as it was. *)
Theorem absent_monitors_are_not_read board m :
  (hardware (self m) !! "PWR" = Some false ->
     battery_voltage board m = (Normal tt, m) /\
     system_voltage board m = (Normal tt, m) /\
     current_draw board m = (Normal tt, m)) /\
  (hardware (self m) !! "SOLAR" = Some false ->
     charge_voltage board m = (Normal tt, m) /\
     charge_current board m = (Normal tt, m)) /\
  (hardware (self m) !! "COUPLE" = Some false ->
     battery_temperature board m = (Normal tt, m)).
Proof.
  unfold battery_voltage, system_voltage, current_draw,
    charge_voltage, charge_current, battery_temperature.
  repeat split; intros; cbn [bind hardware_get];
    match goal with Hkey : _ !! _ = Some false |- _ => rewrite Hkey end;
    reflexivity.
Qed.

Lemma absent_monitors_are_not_read_witness :
  let m := fresh (with_hardware (<["PWR" := false]> all_present) booted) in
  hardware (self m) !! "PWR" = Some false /\
  battery_voltage (steady 5) m = (Normal tt, m).
Proof.
  cbv zeta.
  assert (Hpwr : hardware (self (fresh (with_hardware (<["PWR" := false]> all_present)
                                         booted))) !! "PWR" = Some false)
    by (vm_compute; reflexivity).
  split; [exact Hpwr |].
  exact (proj1 (proj1 (absent_monitors_are_not_read (steady 5) _) Hpwr)).
Defined.
